(** * Files manager: session revocation and the file controllers

    A shallow embedding of [controllers/AuthController.js]
    ([AuthController.getDisconnect]) and of the [FilesController] class
    ([postUpload], [putPublish], [putUnpublish], [getShow], [getIndex],
    [getFile]), followed by the properties of the specification that are
    about them.

    The handlers are written in a small state-and-early-return monad over a
    [world] that holds what the handlers reach through their clients: the
    Redis keys, the [files] collection, the files on disk and the calls made
    to the thumbnail queue. Each [let*] is a statement of the JavaScript, in
    the order of the source.

    What the model leaves out: the expiry of Redis keys (no clock), failures
    of Redis, MongoDB and the file system other than a duplicate [_id] (so
    the [catch] blocks are reached only through [ObjectId], [Buffer.from],
    a duplicate key and a negative [skip]), directories on disk, and body
    fields [name], [type], [data], [parentId] that are not strings. What a
    handler draws from outside (the [_id] of an inserted document, the
    result of [uuidv4()], the fate of the promise of [fileQueue.add]) is an
    argument of the handler.

    After the examples come the other handlers and utilities
    ([AuthController.getConnect], [UsersController.postNew] and [getMe],
    [getUserFromAuthorization], [getUserFromXToken] and the two
    middlewares, [envLoader], [startServer], [waitConnection]), and after
    the properties above, theirs. *)

From Stdlib Require Import ZArith Ascii String List Bool Lia.
From Stdlib.Strings Require Import Byte.
From stdpp Require Import base option gmap strings list.

Local Open Scope string_scope.
Local Open Scope Z_scope.

(** ** JavaScript values *)

(** The scalar JSON values a request body can carry in [isPublic]. *)
Inductive jsval : Type :=
| JUndefined
| JNull
| JBool (b : bool)
| JNum (n : Z)
| JStr (s : string).

#[global] Instance jsval_eq_dec : EqDecision jsval.
Proof. solve_decision. Defined.

(** JavaScript truthiness: what [!v] and [v || d] test. *)
Definition truthy (v : jsval) : bool :=
  match v with
  | JUndefined | JNull => false
  | JBool b => b
  | JNum n => negb (n =? 0)
  | JStr s => negb (String.eqb s "")
  end.

(** [v || d] *)
Definition js_or (v d : jsval) : jsval := if truthy v then v else d.

(** A value that is a string or absent ([undefined]): [Some s] when it is
    truthy, that is present and not the empty string. *)
Definition truthy_str (o : option string) : option string :=
  match o with
  | Some s => if String.eqb s "" then None else Some s
  | None => None
  end.

(** ** Object ids *)

(** An [ObjectId] is kept as its canonical text, 24 lower-case hexadecimal
    digits, which is also what [toString()] and the JSON output give. *)
Definition oid : Type := string.

Definition is_hex (a : ascii) : bool :=
  let n := nat_of_ascii a in
  ((48 <=? n) && (n <=? 57) || (97 <=? n) && (n <=? 102)
   || (65 <=? n) && (n <=? 70))%nat.

Definition lower_hex (a : ascii) : ascii :=
  let n := nat_of_ascii a in
  if ((65 <=? n) && (n <=? 70))%nat then ascii_of_nat (n + 32) else a.

Fixpoint string_forallb (p : ascii → bool) (s : string) : bool :=
  match s with
  | EmptyString => true
  | String a s' => p a && string_forallb p s'
  end.

Fixpoint string_map (g : ascii → ascii) (s : string) : string :=
  match s with
  | EmptyString => EmptyString
  | String a s' => String (g a) (string_map g s')
  end.

Definition hex_digit (n : nat) : ascii :=
  if (n <? 10)%nat then ascii_of_nat (48 + n) else ascii_of_nat (87 + n).

(** The bytes of a string in hexadecimal, two digits each. *)
Fixpoint hex_of_bytes (s : string) : string :=
  match s with
  | EmptyString => EmptyString
  | String a s' =>
      String (hex_digit (nat_of_ascii a / 16))
             (String (hex_digit (nat_of_ascii a mod 16)) (hex_of_bytes s'))
  end.

(** The driver's [ObjectId(s)] on a string: a string of 24 hexadecimal
    digits gives the id it writes, a string of 12 bytes the id of these
    bytes, and anything else throws ([None]). *)
Definition ObjectId (s : string) : option oid :=
  if (String.length s =? 24)%nat && string_forallb is_hex s
  then Some (string_map lower_hex s)
  else if (String.length s =? 12)%nat then Some (hex_of_bytes s)
  else None.

(** [o.toString()] *)
Definition oid_toString (o : oid) : string := o.

(** ** [parseInt(s, 10)] *)

Definition is_ws (a : ascii) : bool :=
  let n := nat_of_ascii a in
  ((n =? 32) || (9 <=? n) && (n <=? 13))%nat.

Fixpoint skip_ws (s : string) : string :=
  match s with
  | String a s' => if is_ws a then skip_ws s' else s
  | EmptyString => s
  end.

Definition digit_of (a : ascii) : option Z :=
  let n := nat_of_ascii a in
  if ((48 <=? n) && (n <=? 57))%nat then Some (Z.of_nat (n - 48)) else None.

(** The longest prefix of decimal digits; [acc] is [None] until a digit has
    been read. *)
Fixpoint read_digits (acc : option Z) (s : string) : option Z :=
  match s with
  | String a s' =>
      match digit_of a with
      | Some d => read_digits (Some (10 * default 0 acc + d)) s'
      | None => acc
      end
  | EmptyString => acc
  end.

(** [None] stands for [NaN]. *)
Definition parseInt10 (s : string) : option Z :=
  match skip_ws s with
  | String "-"%char s' => Z.opp <$> read_digits None s'
  | String "+"%char s' => read_digits None s'
  | s' => read_digits None s'
  end.

(** ** Documents of the [files] collection *)

Inductive file_type : Type := type_folder | type_file | type_image.

#[global] Instance file_type_eq_dec : EqDecision file_type.
Proof. solve_decision. Defined.

Definition type_name (t : file_type) : string :=
  match t with
  | type_folder => "folder"
  | type_file => "file"
  | type_image => "image"
  end.

(** [['folder', 'file', 'image'].includes(type)], with the value found. *)
Definition parse_type (s : string) : option file_type :=
  if String.eqb s "folder" then Some type_folder
  else if String.eqb s "file" then Some type_file
  else if String.eqb s "image" then Some type_image
  else None.

(** The stored [parentId]: the string ['0'] or the id of the parent. *)
Inductive parent_ref : Type :=
| Root
| Parent (p : oid).

#[global] Instance parent_ref_eq_dec : EqDecision parent_ref.
Proof. solve_decision. Defined.

Record file_doc : Type := FileDoc {
  f_id : oid;                    (* _id *)
  f_localPath : option string;   (* localPath, absent on folders *)
  f_userId : oid;                (* userId *)
  f_name : string;               (* name *)
  f_type : file_type;            (* type *)
  f_isPublic : jsval;            (* isPublic *)
  f_parentId : parent_ref;       (* parentId *)
}.

#[global] Instance file_doc_eq_dec : EqDecision file_doc.
Proof. solve_decision. Defined.

(** ** The thumbnail queue *)

Record job_data : Type := JobData {
  job_fileId : oid;
  job_userId : string;
}.

Record job_opts : Type := JobOpts {
  attempts : Z;
  backoff_type : string;
  backoff_delay : Z;             (* milliseconds *)
}.

(** One call of [fileQueue.add(data, opts)]. The promise it returns is not
    awaited: [add_settled] says whether it was fulfilled. *)
Record add_call : Type := AddCall {
  add_data : job_data;
  add_opts : job_opts;
  add_settled : bool;
}.

#[global] Instance job_data_eq_dec : EqDecision job_data.
Proof. solve_decision. Defined.
#[global] Instance job_opts_eq_dec : EqDecision job_opts.
Proof. solve_decision. Defined.
#[global] Instance add_call_eq_dec : EqDecision add_call.
Proof. solve_decision. Defined.

(** ** The world behind the clients *)

Record world : Type := World {
  redis : gmap string string;          (* redisClient: key -> value *)
  files : list file_doc;               (* dbClient.filesCollection(), oldest first *)
  disk : gmap string (list byte);      (* fs: path -> content *)
  fileQueue : list add_call;           (* calls of fileQueue.add, oldest first *)
}.

Definition set_redis (r : gmap string string) (w : world) : world :=
  World r (files w) (disk w) (fileQueue w).
Definition set_files (c : list file_doc) (w : world) : world :=
  World (redis w) c (disk w) (fileQueue w).
Definition set_disk (d : gmap string (list byte)) (w : world) : world :=
  World (redis w) (files w) d (fileQueue w).
Definition set_fileQueue (q : list add_call) (w : world) : world :=
  World (redis w) (files w) (disk w) q.

(** ** Responses *)

Definition fields : Type := list (string * jsval).

Inductive body : Type :=
| Empty                                            (* .end() *)
| JsonNull                                         (* .json(null) *)
| Json (o : fields)                                (* .json({...}) *)
| JsonArray (l : list fields)                      (* .json([...]) *)
| Raw (contentType : string) (content : list byte) (* setHeader; .send(buffer) *).

Record response : Type := Response {
  status : Z;
  res_body : body;
}.

Definition error (code : Z) (msg : string) : response :=
  Response code (Json [("error", JStr msg)]).

Definition unauthorized : response := error 401 "Unauthorized".
Definition not_found : response := error 404 "Not found".
(** What the [catch] block of every handler answers. *)
Definition internal_error : response := error 500 "Internal Server Error".

(** ** Requests *)

Record request : Type := Request {
  header_X_Token : option string;   (* req.header('X-Token') *)
  params_id : string;               (* req.params.id *)
  query_parentId : option string;   (* req.query.parentId *)
  query_page : option string;       (* req.query.page *)
  body_name : option string;        (* req.body.name *)
  body_type : option string;        (* req.body.type *)
  body_isPublic : jsval;            (* req.body.isPublic *)
  body_data : option string;        (* req.body.data *)
  body_parentId : option string;    (* req.body.parentId *)
}.

(** ** The handler monad

    A handler step reads and writes the world and either goes on with a
    value or returns a response at once ([return res.status(..)...]). *)

Definition handler (A : Type) : Type := world → (response + A) * world.

Definition hret {A} (a : A) : handler A := λ w, (inr a, w).

Definition hbind {A B} (m : handler A) (k : A → handler B) : handler B :=
  λ w, match m w with
       | (inl r, w') => (inl r, w')
       | (inr a, w') => k a w'
       end.

(** [return res...]: leave the handler with response [r]. *)
Definition send {A} (r : response) : handler A := λ w, (inl r, w).

Definition gets {A} (g : world → A) : handler A := λ w, (inr (g w), w).
Definition modify (g : world → world) : handler unit := λ w, (inr tt, g w).

(** [o] when it is there, otherwise leave with [r]. *)
Definition or_send {A} (o : option A) (r : response) : handler A :=
  match o with Some a => hret a | None => send r end.

(** [if (c) return r] *)
Definition send_if (c : bool) (r : response) : handler unit :=
  if c then send r else hret tt.

Notation "'let*' x ':=' m 'in' k" := (hbind m (λ x, k))
  (at level 10, x binder, m at level 100, k at level 200).

(** Run a handler to the response it sends. *)
Definition run (h : handler response) (w : world) : response * world :=
  match h w with
  | (inl r, w') => (r, w')
  | (inr r, w') => (r, w')
  end.

(** ** The clients *)

(** Modelled from the spec: [redisClient.get] of [utils/redis.js], the
    session store client ("returns the mapped user id if present and
    unexpired, else none"; expiry is left to the store and not modelled). *)
Definition redisClient_get (key : string) : handler (option string) :=
  gets (λ w, redis w !! key).

(** Modelled from the spec: [redisClient.del] of [utils/redis.js] ("deletes
    the mapping immediately"; deleting an absent key is no error). *)
Definition redisClient_del (key : string) : handler unit :=
  modify (λ w, set_redis (delete key (redis w)) w).

(** Modelled from the spec: the collection behind
    [dbClient.filesCollection()] of [utils/db.js], "an id-indexed table" of
    file nodes read "in a stable order consistent with creation order".
    A query is a predicate on documents; [findOne] gives the first match. *)
Definition findOne (q : file_doc → bool) (c : list file_doc) : option file_doc :=
  List.find q c.

(** [updateOne(q, { $set })]: the first match is changed, if there is one. *)
Fixpoint updateOne (q : file_doc → bool) (set : file_doc → file_doc)
    (c : list file_doc) : list file_doc :=
  match c with
  | [] => []
  | f :: c' => if q f then set f :: c' else f :: updateOne q set c'
  end.

Definition filesCollection_findOne (q : file_doc → bool) : handler (option file_doc) :=
  gets (λ w, findOne q (files w)).

Definition filesCollection_updateOne (q : file_doc → bool) (set : file_doc → file_doc)
    : handler unit :=
  modify (λ w, set_files (updateOne q set (files w)) w).

(** [insertOne]: the new document goes last; an [_id] already in the
    collection is a duplicate-key error, which the handler's [catch] turns
    into a 500. *)
Definition filesCollection_insertOne (d : file_doc) : handler unit :=
  let* c := gets files in
  let* _ := send_if (bool_decide (f_id d ∈ map f_id c)) internal_error in
  modify (set_files (c ++ [d])%list).

(** [find(q).skip(n).limit(m).toArray()] for [n >= 0]. *)
Definition find_skip_limit (q : file_doc → bool) (n m : nat) (c : list file_doc)
    : list file_doc :=
  take m (drop n (List.filter q c)).

(** The query [{ _id: i }]. *)
Definition by_id (i : oid) (f : file_doc) : bool :=
  bool_decide (f_id f = i).
(** The query [{ _id: i, userId: u }]. *)
Definition by_id_user (i u : oid) (f : file_doc) : bool :=
  bool_decide (f_id f = i) && bool_decide (f_userId f = u).
(** The query [{ userId: u, parentId: p }]. *)
Definition by_user_parent (u : oid) (p : parent_ref) (f : file_doc) : bool :=
  bool_decide (f_userId f = u) && bool_decide (f_parentId f = p).

(** [$set: { isPublic: b }] *)
Definition set_isPublic (b : bool) (f : file_doc) : file_doc :=
  FileDoc (f_id f) (f_localPath f) (f_userId f) (f_name f) (f_type f)
          (JBool b) (f_parentId f).

(** A document as [res.json] prints it. *)
Definition parent_json (p : parent_ref) : jsval :=
  match p with Root => JStr "0" | Parent o => JStr (oid_toString o) end.

Definition doc_json (f : file_doc) : fields :=
  ([("_id", JStr (oid_toString (f_id f)))]
   ++ match f_localPath f with Some p => [("localPath", JStr p)] | None => [] end
   ++ [("userId", JStr (oid_toString (f_userId f)));
       ("name", JStr (f_name f));
       ("type", JStr (type_name (f_type f)));
       ("isPublic", f_isPublic f);
       ("parentId", parent_json (f_parentId f))])%list.

(** ** AuthController.getDisconnect *)

Definition auth_key (token : string) : string := "auth_" +:+ token.

Definition getDisconnect (req : request) : handler response :=
  let* token := or_send (truthy_str (header_X_Token req)) unauthorized in
  let* userId := redisClient_get (auth_key token) in
  let* _ := or_send (truthy_str userId) unauthorized in
  let* _ := redisClient_del (auth_key token) in
  hret (Response 204 Empty).

(** ** FilesController *)

Definition fs_writeFile (path : string) (content : list byte) : handler unit :=
  modify (λ w, set_disk (<[path := content]> (disk w)) w).

(** [fs.existsSync(path)] followed by [fs.readFileSync(path)]: the content
    when the file exists. A document without [localPath] has no file. *)
Definition fs_read (path : option string) : handler (option (list byte)) :=
  gets (λ w, path ≫= λ p, disk w !! p).

(** [fileQueue.add(data, opts)], not awaited. *)
Definition fileQueue_add (d : job_data) (o : job_opts) (settled : bool) : handler unit :=
  modify (λ w, set_fileQueue (fileQueue w ++ [AddCall d o settled])%list w).

(** The object [folderData] of [postUpload]. *)
Record folder_data : Type := FolderData {
  fd_userId : oid;
  fd_name : string;
  fd_type : file_type;
  fd_isPublic : jsval;
  fd_parentId : parent_ref;
}.

Definition folderData_json (d : folder_data) : fields :=
  [("userId", JStr (oid_toString (fd_userId d)));
   ("name", JStr (fd_name d));
   ("type", JStr (type_name (fd_type d)));
   ("isPublic", fd_isPublic d);
   ("parentId", parent_json (fd_parentId d))].

(** The document [{ localPath, ...folderData }] (or [folderData] itself)
    once [insertOne] has given it its [_id]. *)
Definition new_doc (i : oid) (localPath : option string) (d : folder_data) : file_doc :=
  FileDoc i localPath (fd_userId d) (fd_name d) (fd_type d) (fd_isPublic d)
          (fd_parentId d).

Definition thumbnail_opts : job_opts := JobOpts 3 "fixed" 5000.

Section FilesController.

(** What the handlers take from their environment and libraries. *)
Context (FOLDER_PATH : option string)             (* process.env.FOLDER_PATH *)
        (path_join : string → string → string)    (* path.join *)
        (Buffer_from_base64 : string → list byte) (* Buffer.from(s, 'base64') *)
        (mime_lookup : string → option string).   (* mime.lookup, None for false *)

(** [postUpload]. [insertedId] is the [_id] the driver gives the inserted
    document, [uuid] the result of [uuidv4()], and [settled] the outcome of
    the promise of [fileQueue.add]. *)
Definition postUpload (insertedId : oid) (uuid : string) (settled : bool)
    (req : request) : handler response :=
  let* token := or_send (truthy_str (header_X_Token req)) unauthorized in
  let* userId := redisClient_get (auth_key token) in
  let* userId := or_send (truthy_str userId) unauthorized in
  let isPublic := body_isPublic req in
  let data := body_data req in
  let* name := or_send (truthy_str (body_name req)) (error 400 "Missing name") in
  let* type := or_send (truthy_str (body_type req) ≫= parse_type)
                       (error 400 "Missing type") in
  let* _ := send_if (bool_decide (truthy_str data = None)
                     && bool_decide (type ≠ type_folder))
                    (error 400 "Missing data") in
  let parentId := default "0" (truthy_str (body_parentId req)) in
  let* _ :=
    if bool_decide (parentId ≠ "0") then
      let* p := or_send (ObjectId parentId) internal_error in
      let* parentFile := filesCollection_findOne (by_id p) in
      let* parentFile := or_send parentFile (error 400 "Parent not found") in
      send_if (bool_decide (f_type parentFile ≠ type_folder))
              (error 400 "Parent is not a folder")
    else hret tt in
  let* parentId :=
    if bool_decide (parentId ≠ "0")
    then or_send (Parent <$> ObjectId parentId) internal_error
    else hret Root in
  let* u := or_send (ObjectId userId) internal_error in
  let folderData := FolderData u name type (js_or isPublic (JBool false)) parentId in
  if bool_decide (type = type_folder) then
    let* _ := filesCollection_insertOne (new_doc insertedId None folderData) in
    (* insertOne has added _id to folderData itself *)
    hret (Response 201 (Json ([("id", JStr (oid_toString insertedId))]
                              ++ folderData_json folderData
                              ++ [("_id", JStr (oid_toString insertedId))])%list))
  else
    let folderName := default "/tmp/files_manager" (truthy_str FOLDER_PATH) in
    let fileId := uuid in
    let localPath := path_join folderName fileId in
    (* Buffer.from(undefined, 'base64') throws *)
    let* data := or_send data internal_error in
    let* _ := fs_writeFile localPath (Buffer_from_base64 data) in
    let* _ := filesCollection_insertOne (new_doc insertedId (Some localPath) folderData) in
    let* _ :=
      if bool_decide (type = type_image)
      then fileQueue_add (JobData insertedId userId) thumbnail_opts settled
      else hret tt in
    hret (Response 201 (Json ([("id", JStr (oid_toString insertedId))]
                              ++ folderData_json folderData)%list)).

(** [res.json(doc)] for the result of a [findOne]. *)
Definition json_doc (o : option file_doc) : body :=
  match o with Some f => Json (doc_json f) | None => JsonNull end.

(** The common body of [putPublish] ([b = true]) and [putUnpublish]
    ([b = false]), which differ in the value set only. *)
Definition put_isPublic (b : bool) (req : request) : handler response :=
  let* token := or_send (truthy_str (header_X_Token req)) unauthorized in
  let* userId := redisClient_get (auth_key token) in
  let* userId := or_send (truthy_str userId) unauthorized in
  let fileId := params_id req in
  let* i := or_send (ObjectId fileId) internal_error in
  let* u := or_send (ObjectId userId) internal_error in
  let* file := filesCollection_findOne (by_id_user i u) in
  let* _ := or_send file not_found in
  let* _ := filesCollection_updateOne (by_id i) (set_isPublic b) in
  let* updatedFile := filesCollection_findOne (by_id i) in
  hret (Response 200 (json_doc updatedFile)).

Definition putPublish : request → handler response := put_isPublic true.
Definition putUnpublish : request → handler response := put_isPublic false.

Definition getShow (req : request) : handler response :=
  let* token := or_send (truthy_str (header_X_Token req)) unauthorized in
  let* userId := redisClient_get (auth_key token) in
  let* userId := or_send (truthy_str userId) unauthorized in
  let fileId := params_id req in
  let* i := or_send (ObjectId fileId) internal_error in
  let* u := or_send (ObjectId userId) internal_error in
  let* file := filesCollection_findOne (by_id_user i u) in
  let* file := or_send file not_found in
  hret (Response 200 (Json (doc_json file))).

(** [parseInt(req.query.page, 10) || 0] *)
Definition page_number (req : request) : Z :=
  default 0 (query_page req ≫= parseInt10).

Definition filesPerPage : nat := 20.

Definition getIndex (req : request) : handler response :=
  let* token := or_send (truthy_str (header_X_Token req)) unauthorized in
  let* userId := redisClient_get (auth_key token) in
  let* userId := or_send (truthy_str userId) unauthorized in
  let parentId := default "0" (truthy_str (query_parentId req)) in
  let page := page_number req in
  let* u := or_send (ObjectId userId) internal_error in
  let* p := if bool_decide (parentId = "0") then hret Root
            else or_send (Parent <$> ObjectId parentId) internal_error in
  (* the store rejects a negative skip *)
  let* _ := send_if (page <? 0) internal_error in
  let* found := gets (λ w, find_skip_limit (by_user_parent u p)
                             (Z.to_nat page * filesPerPage) filesPerPage (files w)) in
  hret (Response 200 (JsonArray (map doc_json found))).

Definition getFile (req : request) : handler response :=
  let fileId := params_id req in
  let* i := or_send (ObjectId fileId) internal_error in
  let* file := filesCollection_findOne (by_id i) in
  let* file := or_send file not_found in
  let* _ := send_if (bool_decide (f_type file = type_folder))
                    (error 400 "A folder doesn't have content") in
  let* _ :=
    if negb (truthy (f_isPublic file)) then
      let token := header_X_Token req in
      let* userId := match truthy_str token with
                     | Some t => redisClient_get (auth_key t)
                     | None => hret None
                     end in
      send_if (bool_decide (truthy_str userId = None)
               || bool_decide (userId ≠ Some (oid_toString (f_userId file))))
              not_found
    else hret tt in
  let* fileContent := fs_read (f_localPath file) in
  let* fileContent := or_send fileContent not_found in
  let mimeType := default "application/octet-stream" (mime_lookup (f_name file)) in
  hret (Response 200 (Raw mimeType fileContent)).

(** ** Operations on the world *)

Inductive op : Type :=
| OpDisconnect (req : request)
| OpUpload (insertedId : oid) (uuid : string) (settled : bool) (req : request)
| OpPublish (req : request)
| OpUnpublish (req : request)
| OpShow (req : request)
| OpIndex (req : request)
| OpFile (req : request).

Definition handle (o : op) : handler response :=
  match o with
  | OpDisconnect req => getDisconnect req
  | OpUpload i u b req => postUpload i u b req
  | OpPublish req => putPublish req
  | OpUnpublish req => putUnpublish req
  | OpShow req => getShow req
  | OpIndex req => getIndex req
  | OpFile req => getFile req
  end.

Definition step (o : op) (w : world) : response * world := run (handle o) w.

End FilesController.

(** ** Who is asking *)

(** The user id the [X-Token] header of a request resolves to: what the
    first lines of every authenticated handler compute before going on. *)
Definition session (w : world) (req : request) : option string :=
  truthy_str (header_X_Token req) ≫= λ t, truthy_str (redis w !! auth_key t).

(** The [_id] index of the collection: no two documents share an [_id]. *)
Definition unique_ids (w : world) : Prop := NoDup (map f_id (files w)).

(** ** Reading answers and comparing documents *)

(** The value under key [k] of a JSON object answer. *)
Definition body_field (k : string) (b : body) : option jsval :=
  match b with
  | Json o => snd <$> List.find (λ kv, String.eqb (fst kv) k) o
  | _ => None
  end.

(** Two documents that agree on every field but [isPublic]. *)
Definition same_but_isPublic (f g : file_doc) : Prop :=
  f_id f = f_id g ∧ f_localPath f = f_localPath g ∧ f_userId f = f_userId g
  ∧ f_name f = f_name g ∧ f_type f = f_type g ∧ f_parentId f = f_parentId g.

(** The collection [c'] keeps the documents of [c], in place and the same
    but for [isPublic], and may have new ones after them. *)
Definition files_frame (c c' : list file_doc) : Prop :=
  ∃ kept new, c' = (kept ++ new)%list ∧ Forall2 same_but_isPublic c kept.

(** What a successful [getFile] answers for document [f]. *)
Definition content_response (mime_lookup : string → option string)
    (f : file_doc) (content : list byte) : response :=
  Response 200 (Raw (default "application/octet-stream" (mime_lookup (f_name f)))
                    content).

(** The filter of [getIndex] on the parent: [None] when [ObjectId] throws. *)
Definition query_parent (req : request) : option parent_ref :=
  let parentId := default "0" (truthy_str (query_parentId req)) in
  if bool_decide (parentId = "0") then Some Root else Parent <$> ObjectId parentId.

(** ** The validation of an upload, in the words of the specification *)

Inductive validation_error : Type :=
| MissingName
| MissingType
| MissingData
| ParentNotFound
| ParentIsNotFolder.


(** The parent an upload names: [None] for the root sentinel (no
    [parentId], an empty one or ['0']). *)
Definition upload_parent (req : request) : option string :=
  match truthy_str (body_parentId req) with
  | Some ps => if bool_decide (ps ≠ "0") then Some ps else None
  | None => None
  end.

(** "name required, then kind must be one of the three values, then
    contentBytes required unless kind=folder, then if parentRef is not
    root, the referenced node must exist (else ParentNotFound) and must be
    kind=folder (else ParentIsNotFolder)": the first check that fails, if
    any. A [parentId] that is not the text of an id names no node and is
    none of these failures. *)
Definition spec_validation (w : world) (req : request) : option validation_error :=
  match truthy_str (body_name req) with
  | None => Some MissingName
  | Some _ =>
      match truthy_str (body_type req) ≫= parse_type with
      | None => Some MissingType
      | Some kind =>
          if bool_decide (truthy_str (body_data req) = None)
             && bool_decide (kind ≠ type_folder)
          then Some MissingData
          else
            match upload_parent req ≫= ObjectId with
            | None => None
            | Some p =>
                match findOne (by_id p) (files w) with
                | None => Some ParentNotFound
                | Some node =>
                    if bool_decide (f_type node ≠ type_folder)
                    then Some ParentIsNotFolder
                    else None
                end
            end
      end
  end.

(** Folders, and only folders, have no [localPath]. *)
Definition locators (w : world) : Prop :=
  ∀ f, f ∈ files w → f_type f = type_folder ↔ f_localPath f = None.

(** ** A small store for the examples

    Alice owns a folder, a private text file in it, a public text file and
    a private image; Bob owns nothing. Both have a session. *)

Definition alice : oid := "aaaaaaaaaaaaaaaaaaaaaaaa".
Definition bob : oid := "bbbbbbbbbbbbbbbbbbbbbbbb".

Definition docs_id : oid := "0000000000000000000000f1".
Definition a_txt_id : oid := "0000000000000000000000f2".
Definition b_txt_id : oid := "0000000000000000000000f3".
Definition pic_id : oid := "0000000000000000000000f4".
Definition fresh_id : oid := "0000000000000000000000f5".

Definition docs : file_doc :=
  FileDoc docs_id None alice "Docs" type_folder (JBool false) Root.
Definition a_txt : file_doc :=
  FileDoc a_txt_id (Some "/tmp/files_manager/u1") alice "a.txt" type_file
          (JBool false) (Parent docs_id).
Definition b_txt : file_doc :=
  FileDoc b_txt_id (Some "/tmp/files_manager/u2") alice "b.txt" type_file
          (JBool true) Root.
Definition pic : file_doc :=
  FileDoc pic_id (Some "/tmp/files_manager/u3") alice "pic.png" type_image
          (JBool false) Root.

Definition hello : list byte := [x68; x65; x6c; x6c; x6f]%byte.

Definition ex_world : world :=
  World (<["auth_ta" := alice]> (<["auth_tb" := bob]> ∅))
        [docs; a_txt; b_txt; pic]
        (<["/tmp/files_manager/u1" := hello]>
           (<["/tmp/files_manager/u2" := hello]>
              (<["/tmp/files_manager/u3" := hello]> ∅)))
        [].

(** A request with the given token and [:id], and nothing else. *)
Definition ex_request (token : option string) (id : string) : request :=
  Request token id None None None None JUndefined None None.

(** A request for [postUpload]. *)
Definition ex_upload (token name type data parentId : option string) : request :=
  Request token "" None None name type JUndefined data parentId.

(** Stand-ins for [path.join], the base64 decoder and [mime.lookup]. *)
Definition ex_path_join (a b : string) : string := a +:+ "/" +:+ b.
Definition ex_base64 (s : string) : list byte := list_byte_of_string s.
Definition ex_mime (s : string) : option string :=
  if String.eqb s "a.txt" then Some "text/plain" else None.

(** A store with 45 files of Alice at the root, to list by pages. *)
Definition numbered_id (n : nat) : oid :=
  "0000000000000000000000"
  +:+ String (ascii_of_nat (48 + n / 10)) (String (ascii_of_nat (48 + n mod 10)) "").

Definition numbered_file (n : nat) : file_doc :=
  FileDoc (numbered_id n) (Some ("/tmp/files_manager/n" +:+ numbered_id n)) alice
          "note.txt" type_file (JBool false) Root.

Definition big_world : world :=
  World (<["auth_ta" := alice]> ∅) (map numbered_file (seq 0 45)) ∅ [].

(** A request for [getIndex] at the root with the given [page]. *)
Definition ex_index (token page : option string) : request :=
  Request token "" None page None None JUndefined None None.

(** * The rest of the controllers and utilities *)

(** ** Strings as JavaScript cuts them *)

(** [s.split(c)] for a separator of one character. *)
Fixpoint split_on (c : ascii) (s : string) : list string :=
  match s with
  | EmptyString => [EmptyString]
  | String a s' =>
      if Ascii.eqb a c then EmptyString :: split_on c s'
      else match split_on c s' with
           | x :: l => String a x :: l
           | [] => [String a EmptyString]
           end
  end.

(** [s.indexOf(c)] with the two [substring]s it is used for: the text
    before the first [c] and the text after it; [None] when [indexOf] is
    [-1]. *)
Fixpoint split_first (c : ascii) (s : string) : option (string * string) :=
  match s with
  | EmptyString => None
  | String a s' =>
      if Ascii.eqb a c then Some (EmptyString, s')
      else match split_first c s' with
           | Some (l, r) => Some (String a l, r)
           | None => None
           end
  end.

(** No character of [s] is [c]. *)
Definition free_of (c : ascii) (s : string) : bool :=
  string_forallb (λ a, negb (Ascii.eqb a c)) s.

Fixpoint trim_end (s : string) : string :=
  match s with
  | EmptyString => EmptyString
  | String a s' =>
      match trim_end s' with
      | EmptyString => if is_ws a then EmptyString else String a EmptyString
      | t => String a t
      end
  end.

(** [s.trim()], on ASCII white space. *)
Definition trim (s : string) : string := trim_end (skip_ws s).

(** [s.includes(sub)] *)
Definition includes (sub s : string) : bool :=
  bool_decide (is_Some (String.index 0 sub s)).

(** [buffer.toString('ascii')]: every byte with its highest bit unset. *)
Definition ascii_of_byte_7 (b : byte) : ascii :=
  match ascii_of_byte b with
  | Ascii b0 b1 b2 b3 b4 b5 b6 _ => Ascii b0 b1 b2 b3 b4 b5 b6 false
  end.

Fixpoint toString_ascii (l : list byte) : string :=
  match l with
  | [] => EmptyString
  | b :: l' => String (ascii_of_byte_7 b) (toString_ascii l')
  end.

(** ** The [users] collection and its queue *)

Record user_doc : Type := UserDoc {
  u_id : oid;            (* _id *)
  u_email : string;      (* email *)
  u_password : string;   (* password: the SHA-1 of the password given *)
}.

#[global] Instance user_doc_eq_dec : EqDecision user_doc.
Proof. solve_decision. Defined.

(** One call of [userQueue.add({ userId })], not awaited. *)
Record user_job : Type := UserJob {
  uj_userId : oid;
  uj_settled : bool;
}.

Record accounts : Type := Accounts {
  users : list user_doc;       (* dbClient.usersCollection(), oldest first *)
  userQueue : list user_job;   (* calls of userQueue.add, oldest first *)
}.

(** Modelled from the spec: [findOne] on the collection behind
    [dbClient.usersCollection()] of [utils/db.js]; the first match. *)
Definition users_findOne (q : user_doc → bool) (c : list user_doc) : option user_doc :=
  List.find q c.

(** The query [{ email }]. *)
Definition by_email (email : string) (u : user_doc) : bool :=
  bool_decide (u_email u = email).
(** The query [{ _id: i }]. *)
Definition by_user_id (i : oid) (u : user_doc) : bool :=
  bool_decide (u_id u = i).

(** Modelled from the spec: [redisClient.set(key, value, duration)] of
    [utils/redis.js] ("stores token -> userId with a 24h expiry"; the
    expiry is not modelled). *)
Definition redisClient_set (key value : string) : handler unit :=
  modify (λ w, set_redis (<[key := value]> (redis w)) w).

Record user_request : Type := UserRequest {
  header_Authorization : option string;   (* req.header('Authorization') *)
  body_email : option string;             (* req.body.email *)
  body_password : option string;          (* req.body.password *)
}.

Definition user_json (i : oid) (email : string) : fields :=
  [("id", JStr (oid_toString i)); ("email", JStr email)].

Section UsersController.

Context (sha1 : string → string)                   (* sha1 *)
        (Buffer_from_base64 : string → list byte)  (* Buffer.from(s, 'base64') *)
        (Buffer_toString : list byte → string).    (* buffer.toString(), UTF-8 *)

(** ** AuthController.getConnect *)

(** [uuid] is the result of [uuidv4()]. *)
Definition getConnect (uuid : string) (users : list user_doc)
    (req : user_request) : handler response :=
  let* authHeader := or_send (truthy_str (header_Authorization req)) unauthorized in
  let* _ := send_if (negb (String.prefix "Basic " authHeader)) unauthorized in
  (* Buffer.from(undefined, 'base64') throws *)
  let* credEnc := or_send (split_on " " authHeader !! 1%nat) internal_error in
  let parts := split_on ":" (toString_ascii (Buffer_from_base64 credEnc)) in
  let email := parts !! 0%nat in
  let password := parts !! 1%nat in
  let* email := or_send (truthy_str email) unauthorized in
  let* password := or_send (truthy_str password) unauthorized in
  let* user := or_send (users_findOne (by_email email) users) unauthorized in
  let* _ := send_if (bool_decide (u_password user ≠ sha1 password)) unauthorized in
  let token := uuid in
  let* _ := redisClient_set (auth_key token) (oid_toString (u_id user)) in
  hret (Response 200 (Json [("token", JStr token)])).

(** ** UsersController *)

(** [postNew] touches the accounts only. [insertedId] is the [_id] the
    driver gives the new user and [settled] the outcome of the promise of
    [userQueue.add]. *)
Definition postNew (insertedId : oid) (settled : bool) (req : user_request)
    (a : accounts) : response * accounts :=
  match truthy_str (body_email req) with
  | None => (error 400 "Missing email", a)
  | Some email =>
      match truthy_str (body_password req) with
      | None => (error 400 "Missing password", a)
      | Some password =>
          match users_findOne (by_email email) (users a) with
          | Some userExists => (error 400 "Already exist", a)
          | None =>
              let hashedPassword := sha1 password in
              (* insertOne: a duplicate _id is an error, caught as a 500 *)
              if bool_decide (insertedId ∈ map u_id (users a))
              then (internal_error, a)
              else
                (Response 201 (Json (user_json insertedId email)),
                 Accounts (users a ++ [UserDoc insertedId email hashedPassword])
                          (userQueue a ++ [UserJob insertedId settled]))
          end
      end
  end.

Definition getMe (users : list user_doc) (req : request) : handler response :=
  let* token := or_send (truthy_str (header_X_Token req)) unauthorized in
  let* userId := redisClient_get (auth_key token) in
  let* userId := or_send (truthy_str userId) unauthorized in
  let* i := or_send (ObjectId userId) internal_error in
  let* user := or_send (users_findOne (by_user_id i) users) unauthorized in
  hret (Response 200 (Json (user_json (u_id user) (u_email user)))).

(** ** utils/auth.js *)

(** [getUserFromAuthorization]: the user, or [None] for [null]; whatever
    is thrown is caught and gives [null]. *)
Definition getUserFromAuthorization (users : list user_doc)
    (req : user_request) : option user_doc :=
  authorization ← truthy_str (header_Authorization req);
  match split_on " " authorization with
  | [kind; credEnc] =>
      if bool_decide (kind ≠ "Basic") then None
      else
        let token := Buffer_toString (Buffer_from_base64 credEnc) in
        '(email, password) ← split_first ":" token;
        user ← users_findOne (by_email email) users;
        if bool_decide (sha1 password ≠ u_password user) then None else Some user
  | _ => None
  end.

(** [getUserFromXToken] *)
Definition getUserFromXToken (users : list user_doc) (req : request)
    (w : world) : option user_doc :=
  token ← truthy_str (header_X_Token req);
  userId ← truthy_str (redis w !! auth_key token);
  (* new ObjectId(userId) throws: caught, null *)
  i ← ObjectId userId;
  users_findOne (by_user_id i) users.

(** ** The authentication middlewares *)

(** What a middleware does with a request: it answers, or it sets
    [req.user] and calls [next()]. *)
Inductive passed : Type :=
| Answered (r : response)
| Next (user : user_doc).

Definition basicAuthenticate (users : list user_doc) (req : user_request) : passed :=
  match getUserFromAuthorization users req with
  | None => Answered unauthorized
  | Some user => Next user
  end.

Definition xTokenAuthenticate (users : list user_doc) (req : request)
    (w : world) : passed :=
  match getUserFromXToken users req w with
  | None => Answered unauthorized
  | Some user => Next user
  end.

End UsersController.

(** No two users share an email, nor an [_id]. *)
Definition unique_emails (a : accounts) : Prop := NoDup (map u_email (users a)).
Definition unique_user_ids (a : accounts) : Prop := NoDup (map u_id (users a)).

(** ** utils/env_loader.js *)

(** The file [envLoader] reads, from [process.env.npm_lifecycle_event]. *)
Definition env_file_path (env : gmap string string) : string :=
  let env_name := default "dev" (truthy_str (env !! "npm_lifecycle_event")) in
  if includes "test" env_name || includes "cover" env_name
  then ".env.test" else ".env".

(** The body of the [forEach]: one line of the file. Warnings are not
    modelled. *)
Definition load_line (env : gmap string string) (line : string)
    : gmap string string :=
  if String.eqb line "" || String.prefix "#" line then env
  else
    match split_first "=" line with
    | None => env
    | Some (l, r) =>
        let variable := trim l in
        let value := trim r in
        if String.eqb variable "" then env else <[variable := value]> env
    end.

(** [envLoader]: [text] gives the content of the files that exist and
    [env] is [process.env]. *)
Definition envLoader (text : gmap string string) (env : gmap string string)
    : gmap string string :=
  let envFilePath := env_file_path env in
  match text !! envFilePath with
  | Some content =>
      let fileContent := trim content in
      foldl load_line env (split_on "010" fileContent)
  | None => env
  end.

(** ** libs/boot.js *)

(** [startServer]: the environment after [envLoader] and the port given to
    [api.listen], a string of the environment or the number 5000. *)
Definition startServer (text : gmap string string) (env : gmap string string)
    : gmap string string * (string + Z) :=
  let env' := envLoader text env in
  let port := match truthy_str (env' !! "PORT") with
              | Some p => inl p
              | None => inr 5000
              end in
  (env', port).

(** ** Waiting for the database

    [waitConnection] of the connection check: every second [i] is
    incremented; at the tenth tick the promise is rejected, before that it
    is resolved at the first tick at which [dbClient.isAlive()] holds.
    [alive k] is what [isAlive()] answers at tick [k]. *)

Inductive settled_promise : Type := Resolved | Rejected.

(** [repeatFct] from counter [i], for at most [fuel] ticks: how the promise
    settles and at which tick. *)
Fixpoint repeatFct (alive : nat → bool) (fuel i : nat)
    : option (settled_promise * nat) :=
  match fuel with
  | O => None
  | S fuel' =>
      let i := S i in
      if (10 <=? i)%nat then Some (Rejected, i)
      else if negb (alive i) then repeatFct alive fuel' i
      else Some (Resolved, i)
  end.

Definition waitConnection (alive : nat → bool) : option (settled_promise * nat) :=
  repeatFct alive 10 0.

(** ** The hierarchy of the collection *)

(** Every document that is not at the root names as parent a folder that
    was created before it. *)
Definition hierarchy (c : list file_doc) : Prop :=
  ∀ n f p, c !! n = Some f → f_parentId f = Parent p →
    ∃ m g, (m < n)%nat ∧ c !! m = Some g ∧ f_id g = p ∧ f_type g = type_folder.

(** The request of an operation. *)
Definition op_request (o : op) : request :=
  match o with
  | OpDisconnect req | OpUpload _ _ _ req | OpPublish req | OpUnpublish req
  | OpShow req | OpIndex req | OpFile req => req
  end.

(** [getFile] is the one handler that takes requests without a session. *)
Definition needs_session (o : op) : bool :=
  match o with OpFile _ => false | _ => true end.

(** ** Examples for the users *)

(** A stand-in for [sha1]. *)
Definition ex_sha1 (s : string) : string := "sha1(" +:+ s +:+ ")".
(** A stand-in for the base64 decoder: the text itself. *)
Definition ex_decode (s : string) : list byte := list_byte_of_string s.
Definition ex_toString (l : list byte) : string := string_of_list_byte l.

Definition carol_id : oid := "cccccccccccccccccccccccc".

Definition ex_accounts : accounts :=
  Accounts [UserDoc alice "alice@example.com" (ex_sha1 "wonderland");
            UserDoc bob "bob@example.com" (ex_sha1 "builder")] [].

Definition ex_signup (email password : option string) : user_request :=
  UserRequest None email password.

Definition ex_login (authorization : option string) : user_request :=
  UserRequest authorization None None.

(** An environment file. *)
Definition ex_env_text : gmap string string :=
  <[".env" := "# settings
PORT = 5001
  #DB=a=b
NAME
DB_HOST=localhost
"]> ∅.

(** Carol's password has a colon. *)
Definition carol : user_doc :=
  UserDoc carol_id "carol@example.com" (ex_sha1 "pa:ss").

Definition ex_accounts_colon : accounts :=
  Accounts (users ex_accounts ++ [carol]) [].

(** [ex_world] after the files have been removed from the disk. *)
Definition ex_world_lost : world := set_disk ∅ ex_world.

(** An environment file that ends with an indented [#] line, and one that
    ends by emptying [PORT]. *)
Definition ex_env_text_hash : gmap string string :=
  <[".env" := "PORT=5001
  #DB = a=b
"]> ∅.

Definition ex_env_text_port : gmap string string :=
  <[".env" := "DB_HOST=localhost
PORT=
"]> ∅.

(** The database answers from the third tick on, or from the tenth. *)
Definition alive_from (n k : nat) : bool := (n <=? k)%nat.

(** * Properties *)

(** Unfold a handler down to the matches on what it reads. *)
Ltac hunfold :=
  unfold run, putPublish, putUnpublish, put_isPublic, getShow, getIndex,
    getFile, getDisconnect, postUpload, filesCollection_findOne,
    filesCollection_updateOne, filesCollection_insertOne, redisClient_get,
    redisClient_del, fs_read, fs_writeFile, fileQueue_add, hbind, or_send,
    send_if, gets, modify, send, hret.

(** Case analysis on the first test a handler has not yet decided: the
    innermost scrutinee of the goal. *)
Ltac inner_match :=
  match goal with
  | |- context [match ?x with _ => _ end] =>
      lazymatch x with
      | context [match _ with _ => _ end] => fail
      | _ => destruct x eqn:?
      end
  end.

Ltac hstep := inner_match; simpl.

(** Walk through every path of a handler, closing with [tac] the paths it
    can. *)
Tactic Notation "hwalk" "by" tactic3(tac) :=
  hunfold; simpl; repeat (hstep; try (by tac)).

Ltac bool_hyps :=
  repeat match goal with
         | H : bool_decide _ = true |- _ => apply bool_decide_eq_true_1 in H
         | H : bool_decide _ = false |- _ => apply bool_decide_eq_false_1 in H
         end.

(** ** The library functions on a few inputs *)

Example ObjectId_upper :
  ObjectId "ABCDEF0123456789abcdef01" = Some "abcdef0123456789abcdef01".
Proof. reflexivity. Qed.

Example ObjectId_12_bytes :
  ObjectId "abcdefghijkl" = Some "6162636465666768696a6b6c".
Proof. reflexivity. Qed.

Example ObjectId_throws : ObjectId "0" = None ∧ ObjectId "not an id" = None.
Proof. split; reflexivity. Qed.

Example parseInt10_examples :
  parseInt10 "2" = Some 2 ∧ parseInt10 "  -12abc" = Some (-12)
  ∧ parseInt10 "007" = Some 7 ∧ parseInt10 "abc" = None ∧ parseInt10 "" = None.
Proof. repeat split; reflexivity. Qed.

(** ** Truthiness and sessions *)

Lemma truthy_str_Some (o : option string) (s : string) :
  truthy_str o = Some s → o = Some s ∧ s ≠ "".
Proof.
  destruct o as [s'|]; simpl; [|done].
  destruct (String.eqb_spec s' ""); [done|].
  intros [= ->]. done.
Qed.

Lemma session_Some (w : world) (req : request) (uid : string) :
  session w req = Some uid →
  ∃ t, truthy_str (header_X_Token req) = Some t
       ∧ truthy_str (redis w !! auth_key t) = Some uid.
Proof.
  unfold session. destruct (truthy_str (header_X_Token req)) as [t|]; [|done].
  simpl. eauto.
Qed.

Lemma session_None (w : world) (req : request) :
  session w req = None →
  truthy_str (header_X_Token req) = None
  ∨ ∃ t, truthy_str (header_X_Token req) = Some t
         ∧ truthy_str (redis w !! auth_key t) = None.
Proof.
  unfold session. destruct (truthy_str (header_X_Token req)) as [t|]; [|by left].
  simpl. right. eauto.
Qed.

(** ** Object ids *)

Lemma lower_hex_spec (a : ascii) :
  is_hex a = true →
  is_hex (lower_hex a) = true ∧ lower_hex (lower_hex a) = lower_hex a.
Proof. by destruct a as [[] [] [] [] [] [] [] []]; vm_compute. Qed.

Lemma hex_digit_spec (n : nat) :
  (n < 16)%nat →
  is_hex (hex_digit n) = true ∧ lower_hex (hex_digit n) = hex_digit n.
Proof.
  intros Hn. do 16 (destruct n as [|n]; [by vm_compute|]). lia.
Qed.

(** A string that is the text of an id has 24 or 12 characters: it is
    neither empty nor ['0']. *)
Lemma ObjectId_length (s : string) (o : oid) :
  ObjectId s = Some o → String.length s = 24%nat ∨ String.length s = 12%nat.
Proof.
  unfold ObjectId.
  destruct (String.length s =? 24)%nat eqn:H24.
  - intros _. left. by apply Nat.eqb_eq.
  - simpl. destruct (String.length s =? 12)%nat eqn:H12; [|done].
    intros _. right. by apply Nat.eqb_eq.
Qed.

(** An id is written as 24 hexadecimal digits in lower case. *)
Lemma ObjectId_canonical (s : string) (o : oid) :
  ObjectId s = Some o →
  String.length o = 24%nat ∧ string_forallb is_hex o = true
  ∧ string_map lower_hex o = o.
Proof.
  unfold ObjectId.
  destruct (String.length s =? 24)%nat eqn:H24; simpl.
  - destruct (string_forallb is_hex s) eqn:Hhex; simpl.
    + intros [= <-]. apply Nat.eqb_eq in H24. rewrite <- H24. clear H24.
      induction s as [|a s IH]; simpl in *; [done|].
      apply andb_true_iff in Hhex as [Ha Hs].
      destruct (lower_hex_spec a Ha) as [-> ->], (IH Hs) as (-> & -> & ->). done.
    + destruct (String.length s =? 12)%nat eqn:H12; [|done].
      by rewrite Nat.eqb_eq in H24, H12; congruence.
  - destruct (String.length s =? 12)%nat eqn:H12; [|done].
    intros [= <-]. apply Nat.eqb_eq in H12.
    assert (String.length (hex_of_bytes s) = (2 * String.length s)%nat
            ∧ string_forallb is_hex (hex_of_bytes s) = true
            ∧ string_map lower_hex (hex_of_bytes s) = hex_of_bytes s)
      as (Hlen & -> & ->); [|by rewrite Hlen, H12].
    clear. induction s as [|a s (IHl & IHh & IHm)];
      cbn [hex_of_bytes string_forallb string_map String.length]; [done|].
    assert (nat_of_ascii a / 16 < 16)%nat as Hhi.
    { pose proof (nat_ascii_bounded a). apply Nat.Div0.div_lt_upper_bound. lia. }
    assert (nat_of_ascii a mod 16 < 16)%nat as Hlo by (apply Nat.mod_upper_bound; lia).
    destruct (hex_digit_spec _ Hhi) as [-> ->], (hex_digit_spec _ Hlo) as [-> ->].
    rewrite IHl, IHh, IHm. split; [lia|done].
Qed.

(** The text of an id is read back as the same id: for [o] the result of
    [ObjectId], [ObjectId(o.toString())] is [o]. *)
Lemma ObjectId_toString (s : string) (o : oid) :
  ObjectId s = Some o → ObjectId (oid_toString o) = Some o.
Proof.
  intros (Hlen & Hhex & Hlow)%ObjectId_canonical.
  unfold ObjectId, oid_toString. by rewrite Hlen, Hhex, Hlow.
Qed.

(** ** Queries on the collection *)

Lemma findOne_Some (q : file_doc → bool) (c : list file_doc) (f : file_doc) :
  findOne q c = Some f → f ∈ c ∧ q f = true.
Proof.
  unfold findOne. intros H. apply find_some in H as [Hin Hq].
  split; [by apply list_elem_of_In|done].
Qed.

Lemma findOne_None (q : file_doc → bool) (c : list file_doc) :
  findOne q c = None ↔ ∀ f, f ∈ c → q f = false.
Proof.
  unfold findOne. induction c as [|g c IH]; simpl.
  - split; [|done]. intros _ f Hf. by apply elem_of_nil in Hf.
  - destruct (q g) eqn:Hg.
    + split; [done|]. intros H. specialize (H g (list_elem_of_here _ _)). congruence.
    + rewrite IH. split.
      * intros H f [->|Hf]%elem_of_cons; auto.
      * intros H f Hf. apply H. by apply list_elem_of_further.
Qed.

(** With the [_id] index, a document is the one its [_id] finds. *)
Lemma findOne_by_id_unique (c : list file_doc) (f : file_doc) :
  NoDup (map f_id c) → f ∈ c → findOne (by_id (f_id f)) c = Some f.
Proof.
  unfold findOne, by_id. induction c as [|g c IH]; simpl; intros Hnd Hf.
  - by apply elem_of_nil in Hf.
  - apply NoDup_cons in Hnd as [Hg Hnd].
    apply elem_of_cons in Hf as [->|Hf].
    + by rewrite bool_decide_eq_true_2.
    + rewrite bool_decide_eq_false_2; [by apply IH|].
      intros Heq. apply Hg. rewrite Heq. apply list_elem_of_fmap. eauto.
Qed.

(** The query by [_id] and owner finds the document of that [_id] when the
    owner is right, and nothing otherwise. *)
Lemma findOne_by_id_user (c : list file_doc) (i u : oid) (f : file_doc) :
  NoDup (map f_id c) → findOne (by_id i) c = Some f →
  findOne (by_id_user i u) c = if bool_decide (f_userId f = u) then Some f else None.
Proof.
  intros Hnd Hf. case_bool_decide as Hu.
  - revert Hf. unfold findOne, by_id_user, by_id.
    induction c as [|g c IH]; simpl; [done|].
    apply NoDup_cons in Hnd as [_ Hnd].
    case_bool_decide; simpl.
    + intros [= ->]. by rewrite bool_decide_eq_true_2.
    + by apply IH.
  - apply findOne_None. intros g Hg. unfold by_id_user.
    apply findOne_Some in Hf as [Hf Hi]. unfold by_id in Hi.
    apply bool_decide_eq_true_1 in Hi.
    destruct (decide (f_id g = i)) as [Hgi|Hgi].
    + assert (g = f) as ->.
      { pose proof (findOne_by_id_unique c g Hnd Hg) as H1.
        pose proof (findOne_by_id_unique c f Hnd Hf) as H2.
        rewrite Hgi in H1. rewrite Hi in H2. congruence. }
      rewrite (bool_decide_eq_false_2 _ Hu). apply andb_false_r.
    + by rewrite (bool_decide_eq_false_2 _ Hgi).
Qed.

(** ** Revoking a session ([getDisconnect]) *)

(** A token that does not resolve is answered 401 and nothing changes. *)
Lemma getDisconnect_unresolved (req : request) (w : world) :
  session w req = None → run (getDisconnect req) w = (unauthorized, w).
Proof.
  intros [H|(t & Ht & H)]%session_None; hunfold.
  - by rewrite H.
  - rewrite Ht. simpl. by rewrite H.
Qed.

(** A token that resolves is answered 204 and its key is deleted. *)
Lemma getDisconnect_resolved (req : request) (w : world) (t uid : string) :
  truthy_str (header_X_Token req) = Some t →
  truthy_str (redis w !! auth_key t) = Some uid →
  run (getDisconnect req) w
  = (Response 204 Empty, set_redis (delete (auth_key t) (redis w)) w).
Proof.
  intros Ht Hu. hunfold. rewrite Ht. simpl. by rewrite Hu.
Qed.

(** Deleting a key of the session store twice is deleting it once. *)
Lemma redis_delete_twice (key : string) (r : gmap string string) :
  delete key (delete key r) = delete key r.
Proof. apply delete_id. apply lookup_delete_eq. Qed.

(** C3, as amended: the first revoke of a token that resolves is answered
    204 and deletes its key; revoking the same token again is answered
    401 Unauthorized, as for any token that does not resolve, and leaves
    the store as the first revoke left it. *)
Theorem getDisconnect_twice (req : request) (w : world) (uid : string) :
  session w req = Some uid →
  let w1 := snd (run (getDisconnect req) w) in
  fst (run (getDisconnect req) w) = Response 204 Empty
  ∧ (∃ t, header_X_Token req = Some t
          ∧ w1 = set_redis (delete (auth_key t) (redis w)) w)
  ∧ session w1 req = None
  ∧ run (getDisconnect req) w1 = (unauthorized, w1).
Proof.
  intros (t & Ht & Hu)%session_Some. simpl.
  rewrite (getDisconnect_resolved req w t uid Ht Hu). simpl.
  assert (session (set_redis (delete (auth_key t) (redis w)) w) req = None) as Hs.
  { unfold session. rewrite Ht. simpl. by rewrite lookup_delete_eq. }
  split; [done|]. split; [|split; [done|]].
  - exists t. split; [|done]. by apply truthy_str_Some in Ht as [? _].
  - by apply getDisconnect_unresolved.
Qed.

Lemma getDisconnect_twice_witness :
  session ex_world (ex_request (Some "ta") "") = Some alice
  ∧ run (getDisconnect (ex_request (Some "ta") ""))
        (snd (run (getDisconnect (ex_request (Some "ta") "")) ex_world))
    = (unauthorized, snd (run (getDisconnect (ex_request (Some "ta") "")) ex_world)).
Proof.
  split; [reflexivity|].
  apply (getDisconnect_twice (ex_request (Some "ta") "") ex_world alice).
  reflexivity.
Defined.

(** C3 as stated fails: the second of two revokes of Alice's token is an
    error, 401 Unauthorized. *)
Lemma getDisconnect_twice_counterexample :
  let req := ex_request (Some "ta") "" in
  let w1 := snd (run (getDisconnect req) ex_world) in
  status (fst (run (getDisconnect req) ex_world)) = 204
  ∧ fst (run (getDisconnect req) w1) = error 401 "Unauthorized"
  ∧ status (fst (run (getDisconnect req) w1)) ≠ 204.
Proof. vm_compute. split; [reflexivity|]. split; [reflexivity|]. discriminate. Qed.

(** ** Fetching one node ([getShow]) *)

(** C1, as amended: asked by a user with a session for the [_id] of a
    stored document, [getShow] returns the document if that user is its
    owner and Not found otherwise, whatever [isPublic] is. *)
Theorem getShow_owner_only (req : request) (w : world) (uid : string)
    (i u : oid) (f : file_doc) :
  unique_ids w →
  session w req = Some uid →
  ObjectId (params_id req) = Some i →
  ObjectId uid = Some u →
  findOne (by_id i) (files w) = Some f →
  run (getShow req) w
  = (if bool_decide (f_userId f = u) then Response 200 (Json (doc_json f))
     else not_found, w).
Proof.
  intros Hnd (t & Ht & Hu)%session_Some Hi Huid Hf.
  hunfold. rewrite Ht. simpl. rewrite Hu. simpl. rewrite Hi, Huid. simpl.
  rewrite (findOne_by_id_user _ _ u _ Hnd Hf).
  by case_bool_decide.
Qed.

Lemma getShow_owner_only_witness :
  run (getShow (ex_request (Some "tb") b_txt_id)) ex_world = (not_found, ex_world)
  ∧ run (getShow (ex_request (Some "ta") b_txt_id)) ex_world
    = (Response 200 (Json (doc_json b_txt)), ex_world).
Proof.
  split.
  - apply (getShow_owner_only (ex_request (Some "tb") b_txt_id) ex_world bob
             b_txt_id bob b_txt); [|reflexivity..].
    unfold unique_ids. apply (bool_decide_unpack _). vm_compute. exact I.
  - apply (getShow_owner_only (ex_request (Some "ta") b_txt_id) ex_world alice
             b_txt_id alice b_txt); [|reflexivity..].
    unfold unique_ids. apply (bool_decide_unpack _). vm_compute. exact I.
Defined.

(** C1 as stated fails: [b.txt] is public, Bob has a session and is not
    the owner, and he is answered Not found. *)
Lemma getShow_public_counterexample :
  let req := ex_request (Some "tb") b_txt_id in
  findOne (by_id b_txt_id) (files ex_world) = Some b_txt
  ∧ truthy (f_isPublic b_txt) = true
  ∧ session ex_world req = Some bob
  ∧ fst (run (getShow req) ex_world) = not_found
  ∧ fst (run (getShow req) ex_world) ≠ Response 200 (Json (doc_json b_txt)).
Proof. vm_compute. repeat split; discriminate. Qed.

(** ** Reading content ([getFile]) *)

Lemma findOne_by_id_owner (c : list file_doc) (i u : oid) (f : file_doc) :
  findOne (by_id i) c = Some f → f_userId f = u →
  findOne (by_id_user i u) c = Some f.
Proof.
  unfold findOne, by_id_user, by_id. intros Hf Hu.
  induction c as [|g c IH]; simpl in *; [done|].
  case_bool_decide; simpl.
  - injection Hf as ->. by rewrite bool_decide_eq_true_2.
  - by apply IH.
Qed.

(** [updateOne] changes the document that [findOne] finds. *)
Lemma findOne_updateOne (q : file_doc → bool) (set : file_doc → file_doc)
    (c : list file_doc) (f : file_doc) :
  findOne q c = Some f → q (set f) = true →
  findOne q (updateOne q set c) = Some (set f).
Proof.
  unfold findOne. intros Hf Hq.
  induction c as [|g c IH]; simpl in *; [done|].
  destruct (q g) eqn:Hg; simpl.
  - injection Hf as ->. by rewrite Hq.
  - rewrite Hg. by apply IH.
Qed.

(** A publish or unpublish by the owner: the answer and the new world. *)
Lemma put_isPublic_owner (b : bool) (req : request) (w : world) (uid : string)
    (i : oid) (f : file_doc) :
  session w req = Some uid →
  ObjectId (params_id req) = Some i →
  ObjectId uid = Some (f_userId f) →
  findOne (by_id i) (files w) = Some f →
  run (put_isPublic b req) w
  = (Response 200 (Json (doc_json (set_isPublic b f))),
     set_files (updateOne (by_id i) (set_isPublic b) (files w)) w).
Proof.
  intros (t & Ht & Hu)%session_Some Hi Huid Hf.
  hunfold. rewrite Ht. simpl. rewrite Hu. simpl. rewrite Hi, Huid. simpl.
  rewrite (findOne_by_id_owner _ _ _ _ Hf eq_refl). simpl.
  rewrite (findOne_updateOne _ _ _ _ Hf); [done|].
  apply findOne_Some in Hf as [_ Hf]. exact Hf.
Qed.

Section FileContent.

Context (mime_lookup : string → option string).

(** A document that is not a folder and is public is read by anyone. *)
Lemma getFile_public (req : request) (w : world) (i : oid) (f : file_doc)
    (path : string) (content : list byte) :
  ObjectId (params_id req) = Some i →
  findOne (by_id i) (files w) = Some f →
  f_type f ≠ type_folder →
  truthy (f_isPublic f) = true →
  f_localPath f = Some path →
  disk w !! path = Some content →
  run (getFile mime_lookup req) w = (content_response mime_lookup f content, w).
Proof.
  intros Hi Hf Hty Hpub Hpath Hdisk.
  hunfold. rewrite Hi. simpl. rewrite Hf. simpl.
  rewrite (bool_decide_eq_false_2 _ Hty). simpl.
  rewrite Hpub. simpl. rewrite Hpath. simpl. by rewrite Hdisk.
Qed.

(** A document that is not a folder and is not public is read by the
    session of its owner and by no one else. *)
Lemma getFile_private (req : request) (w : world) (i : oid) (f : file_doc)
    (path : string) (content : list byte) :
  ObjectId (params_id req) = Some i →
  findOne (by_id i) (files w) = Some f →
  f_type f ≠ type_folder →
  truthy (f_isPublic f) = false →
  f_localPath f = Some path →
  disk w !! path = Some content →
  run (getFile mime_lookup req) w
  = (if bool_decide (session w req = Some (oid_toString (f_userId f)))
     then content_response mime_lookup f content else not_found, w).
Proof.
  intros Hi Hf Hty Hpub Hpath Hdisk.
  hunfold. rewrite Hi. simpl. rewrite Hf. simpl.
  rewrite (bool_decide_eq_false_2 _ Hty). simpl.
  rewrite Hpub. simpl. unfold session, oid_toString.
  destruct (truthy_str (header_X_Token req)) as [t|]; simpl.
  - destruct (truthy_str (redis w !! auth_key t)) as [v|] eqn:Hv; simpl.
    + apply truthy_str_Some in Hv as Hv'. destruct Hv' as [Hv' _].
      rewrite Hv'. destruct (decide (v = f_userId f)) as [->|Hne].
      * rewrite (bool_decide_eq_false_2 (_ ≠ _)) by (intros H; by apply H).
        rewrite bool_decide_eq_true_2 by done.
        rewrite Hpath. simpl. by rewrite Hdisk.
      * rewrite (bool_decide_eq_true_2 (_ ≠ _)) by congruence.
        by rewrite bool_decide_eq_false_2 by congruence.
    + done.
  - done.
Qed.

(** C7: whoever asks, with or without a token and whatever the token
    resolves to, reading the content of a stored folder is answered 400
    ["A folder doesn't have content"], not 404; neither [isPublic] nor the
    owner is looked at. *)
Theorem getFile_folder (req : request) (w : world) (i : oid) (f : file_doc) :
  ObjectId (params_id req) = Some i →
  findOne (by_id i) (files w) = Some f →
  f_type f = type_folder →
  run (getFile mime_lookup req) w = (error 400 "A folder doesn't have content", w).
Proof.
  intros Hi Hf Hty. hunfold. rewrite Hi. simpl. rewrite Hf. simpl.
  by rewrite (bool_decide_eq_true_2 _ Hty).
Qed.

(** C2: the content of a stored file or image whose [isPublic] is false is
    read by a caller whose session is the owner's and is Not found for
    every other caller, with or without a token; once the owner has
    published it, every caller reads the same content. *)
Theorem getFile_private_then_published (req owner_req : request) (w : world)
    (uid : string) (i : oid) (f : file_doc) (path : string) (content : list byte) :
  ObjectId (params_id req) = Some i →
  findOne (by_id i) (files w) = Some f →
  f_type f ≠ type_folder →
  f_isPublic f = JBool false →
  f_localPath f = Some path →
  disk w !! path = Some content →
  session w owner_req = Some uid →
  ObjectId uid = Some (f_userId f) →
  ObjectId (params_id owner_req) = Some i →
  run (getFile mime_lookup req) w
  = (if bool_decide (session w req = Some (oid_toString (f_userId f)))
     then content_response mime_lookup f content else not_found, w)
  ∧ let w' := snd (run (putPublish owner_req) w) in
    status (fst (run (putPublish owner_req) w)) = 200
    ∧ run (getFile mime_lookup req) w' = (content_response mime_lookup f content, w').
Proof.
  intros Hi Hf Hty Hpub Hpath Hdisk Hs Huid Hoi. split.
  - apply (getFile_private req w i f path content); try done. by rewrite Hpub.
  - unfold putPublish. rewrite (put_isPublic_owner true owner_req w uid i f); try done.
    simpl. split; [done|].
    apply (getFile_public req _ i (set_isPublic true f) path content); try done.
    simpl. apply findOne_updateOne; [done|].
    apply findOne_Some in Hf as [_ Hf]. exact Hf.
Qed.

End FileContent.

Lemma getFile_folder_witness :
  run (getFile ex_mime (ex_request None docs_id)) ex_world
  = (error 400 "A folder doesn't have content", ex_world).
Proof.
  apply (getFile_folder ex_mime (ex_request None docs_id) ex_world docs_id docs);
    reflexivity.
Defined.

Lemma getFile_private_then_published_witness :
  run (getFile ex_mime (ex_request None a_txt_id)) ex_world = (not_found, ex_world)
  ∧ fst (run (getFile ex_mime (ex_request None a_txt_id))
             (snd (run (putPublish (ex_request (Some "ta") a_txt_id)) ex_world)))
    = Response 200 (Raw "text/plain" hello).
Proof.
  pose proof (getFile_private_then_published ex_mime
                (ex_request None a_txt_id) (ex_request (Some "ta") a_txt_id)
                ex_world alice a_txt_id a_txt "/tmp/files_manager/u1" hello
                eq_refl eq_refl) as H.
  destruct H as [H1 [_ H2]];
    [discriminate|reflexivity|reflexivity|reflexivity|reflexivity|reflexivity
    |reflexivity|].
  split; [exact H1|]. simpl in H2. rewrite H2. reflexivity.
Defined.

(** ** What the handlers do to the collection *)

Lemma Forall2_same_refl (c : list file_doc) : Forall2 same_but_isPublic c c.
Proof. induction c; constructor; [by unfold same_but_isPublic|done]. Qed.

Lemma files_frame_refl (c : list file_doc) : files_frame c c.
Proof. exists c, []. split; [by rewrite app_nil_r|apply Forall2_same_refl]. Qed.

Lemma files_frame_insert (c : list file_doc) (d : file_doc) :
  files_frame c (c ++ [d]).
Proof. exists c, [d]. split; [done|apply Forall2_same_refl]. Qed.

Lemma files_frame_updateOne (q : file_doc → bool) (b : bool) (c : list file_doc) :
  files_frame c (updateOne q (set_isPublic b) c).
Proof.
  exists (updateOne q (set_isPublic b) c), []. split; [by rewrite app_nil_r|].
  induction c as [|f c IH]; simpl; [constructor|].
  destruct (q f); constructor; try done.
  apply Forall2_same_refl.
Qed.

Lemma getDisconnect_files (req : request) (w : world) :
  files (snd (run (getDisconnect req) w)) = files w.
Proof. hwalk by idtac. Qed.

Lemma getShow_world (req : request) (w : world) :
  snd (run (getShow req) w) = w.
Proof. hwalk by idtac. Qed.

Lemma getIndex_world (req : request) (w : world) :
  snd (run (getIndex req) w) = w.
Proof. hwalk by idtac. Qed.

Lemma getFile_world (mime_lookup : string → option string) (req : request)
    (w : world) :
  snd (run (getFile mime_lookup req) w) = w.
Proof. hwalk by idtac. Qed.

Lemma put_isPublic_files (b : bool) (req : request) (w : world) :
  files (snd (run (put_isPublic b req) w)) = files w
  ∨ ∃ i, files (snd (run (put_isPublic b req) w))
         = updateOne (by_id i) (set_isPublic b) (files w).
Proof. hwalk by left. all: right; by eexists. Qed.

Section Frame.

Context (FOLDER_PATH : option string)
        (path_join : string → string → string)
        (Buffer_from_base64 : string → list byte)
        (mime_lookup : string → option string).

Lemma postUpload_files (insertedId : oid) (uuid : string) (settled : bool)
    (req : request) (w : world) :
  let w' := snd (run (postUpload FOLDER_PATH path_join Buffer_from_base64
                        insertedId uuid settled req) w) in
  files w' = files w
  ∨ ∃ d, files w' = (files w ++ [d])%list
         ∧ f_id d = insertedId
         ∧ (insertedId ∉ map f_id (files w))
         ∧ (f_type d = type_folder ↔ f_localPath d = None).
Proof.
  hwalk by left.
  all: right; eexists; (split; [reflexivity|]); simpl; bool_hyps.
  all: by repeat split.
Qed.

(** C8: whatever the operation, every document of the collection is still
    there afterwards, in its place, with the same [_id], owner, name, type,
    parent and [localPath]; only [isPublic] may differ, and new documents
    come after the old ones. *)
Theorem step_files_frame (o : op) (w : world) :
  files_frame (files w)
    (files (snd (step FOLDER_PATH path_join Buffer_from_base64 mime_lookup o w))).
Proof.
  unfold step.
  destruct o as [req|i uu b req|req|req|req|req|req];
    cbn [handle]; unfold putPublish, putUnpublish.
  - rewrite getDisconnect_files. apply files_frame_refl.
  - destruct (postUpload_files i uu b req w) as [->|[d [-> _]]].
    + apply files_frame_refl.
    + apply files_frame_insert.
  - destruct (put_isPublic_files true req w) as [->|[j ->]].
    + apply files_frame_refl.
    + apply files_frame_updateOne.
  - destruct (put_isPublic_files false req w) as [->|[j ->]].
    + apply files_frame_refl.
    + apply files_frame_updateOne.
  - rewrite getShow_world. apply files_frame_refl.
  - rewrite getIndex_world. apply files_frame_refl.
  - rewrite getFile_world. apply files_frame_refl.
Qed.

(** The [_id] index is kept by every operation. *)
Lemma step_unique_ids (o : op) (w : world) :
  unique_ids w →
  unique_ids (snd (step FOLDER_PATH path_join Buffer_from_base64 mime_lookup o w)).
Proof.
  unfold unique_ids. intros Hnd.
  assert (∀ q b c, map f_id (updateOne q (set_isPublic b) c) = map f_id c) as Hup.
  { intros q b c. induction c as [|f c IH]; simpl; [done|].
    destruct (q f); simpl; by rewrite ?IH. }
  unfold step.
  destruct o as [req|i uu b req|req|req|req|req|req];
    cbn [handle]; unfold putPublish, putUnpublish.
  - by rewrite getDisconnect_files.
  - destruct (postUpload_files i uu b req w) as [->|[d [-> [Hd [Hfresh _]]]]]; [done|].
    rewrite map_app. simpl. apply NoDup_app. split; [done|]. split.
    + intros x Hx [->|Hin%elem_of_nil]%elem_of_cons; [|done].
      rewrite Hd in Hx. by apply Hfresh.
    + apply NoDup_singleton.
  - destruct (put_isPublic_files true req w) as [->|[j ->]]; [done|]. by rewrite Hup.
  - destruct (put_isPublic_files false req w) as [->|[j ->]]; [done|]. by rewrite Hup.
  - by rewrite getShow_world.
  - by rewrite getIndex_world.
  - by rewrite getFile_world.
Qed.

(** Folders, and only folders, are without [localPath] after every
    operation if they were before it. *)
Lemma step_locators (o : op) (w : world) :
  locators w →
  locators (snd (step FOLDER_PATH path_join Buffer_from_base64 mime_lookup o w)).
Proof.
  unfold locators. intros Hloc.
  assert (∀ q b c f, f ∈ updateOne q (set_isPublic b) c →
            ∃ g, g ∈ c ∧ f_type f = f_type g ∧ f_localPath f = f_localPath g)
    as Hup.
  { intros q b c f. induction c as [|g c IH]; simpl; [by intros ?%elem_of_nil|].
    destruct (q g).
    - intros [->|Hf]%elem_of_cons.
      + exists g. split; [apply list_elem_of_here|done].
      + exists f. split; [by apply list_elem_of_further|done].
    - intros [->|Hf]%elem_of_cons.
      + exists g. split; [apply list_elem_of_here|done].
      + destruct (IH Hf) as (h & Hh & Heq). exists h.
        split; [by apply list_elem_of_further|done]. }
  unfold step.
  destruct o as [req|i uu b req|req|req|req|req|req];
    cbn [handle]; unfold putPublish, putUnpublish.
  - by rewrite getDisconnect_files.
  - destruct (postUpload_files i uu b req w) as [->|[d [-> [_ [_ Hd]]]]]; [done|].
    intros f [Hf|Hf%list_elem_of_singleton]%elem_of_app; [by apply Hloc|by subst f].
  - destruct (put_isPublic_files true req w) as [->|[j ->]]; [done|].
    intros f (g & Hg & Ht & Hl)%Hup. rewrite Ht, Hl. by apply Hloc.
  - destruct (put_isPublic_files false req w) as [->|[j ->]]; [done|].
    intros f (g & Hg & Ht & Hl)%Hup. rewrite Ht, Hl. by apply Hloc.
  - by rewrite getShow_world.
  - by rewrite getIndex_world.
  - by rewrite getFile_world.
Qed.

End Frame.

(** ** Listing ([getIndex]) *)

(** The page a request asks for: the documents of owner [u] and parent
    [pr], in the order of the collection, from position [page * 20] on
    and at most 20 of them. *)
Lemma getIndex_ok (req : request) (w : world) (uid : string) (u : oid)
    (pr : parent_ref) :
  session w req = Some uid →
  ObjectId uid = Some u →
  query_parent req = Some pr →
  0 ≤ page_number req →
  run (getIndex req) w
  = (Response 200 (JsonArray (map doc_json
       (take 20 (drop (Z.to_nat (page_number req) * 20)
                      (List.filter (by_user_parent u pr) (files w)))))), w).
Proof.
  intros (t & Ht & Hu)%session_Some Huid Hq Hp.
  unfold query_parent in Hq. hunfold. rewrite Ht. simpl. rewrite Hu. simpl.
  rewrite Huid. simpl.
  assert ((page_number req <? 0) = false) as -> by lia.
  case_bool_decide.
  - by injection Hq as <-.
  - by rewrite Hq.
Qed.

(** C6: for a filter on owner and parent and a page number [p >= 0],
    [getIndex] returns at most 20 documents: of the matching documents,
    taken in the order of the collection, those at positions [p * 20] to
    [p * 20 + 20]; page [p] and page [p + 1] have no document in common,
    and one after the other they are in creation order. *)
Theorem getIndex_pages (req next : request) (w : world) (uid : string)
    (u : oid) (pr : parent_ref) :
  unique_ids w →
  session w req = Some uid →
  session w next = Some uid →
  ObjectId uid = Some u →
  query_parent req = Some pr →
  query_parent next = Some pr →
  0 ≤ page_number req →
  page_number next = page_number req + 1 →
  let matching := List.filter (by_user_parent u pr) (files w) in
  let n := (Z.to_nat (page_number req) * 20)%nat in
  ∃ l l',
    run (getIndex req) w = (Response 200 (JsonArray (map doc_json l)), w)
    ∧ run (getIndex next) w = (Response 200 (JsonArray (map doc_json l')), w)
    ∧ (length l ≤ 20)%nat
    ∧ l = take 20 (drop n matching)
    ∧ l' = take 20 (drop (n + 20) matching)
    ∧ (∀ f, f ∈ l → f ∉ l')
    ∧ (l ++ l')%list `sublist_of` files w.
Proof.
  intros Hnd Hs Hs' Hu Hq Hq' Hp Hnext matching n.
  exists (take 20 (drop n matching)), (take 20 (drop (n + 20) matching)).
  assert ((Z.to_nat (page_number next) * 20 = n + 20)%nat) as Hn by (subst n; lia).
  assert ((take 20 (drop n matching) ++ take 20 (drop (n + 20) matching))%list
          = take 40 (drop n matching)) as Happ.
  { rewrite <- drop_drop. by rewrite (take_take_drop (drop n matching) 20 20). }
  assert (take 40 (drop n matching) `sublist_of` files w) as Hsub.
  { etrans; [apply sublist_take|]. etrans; [apply sublist_drop|].
    subst matching. clear. induction (files w) as [|f c IH]; simpl; [done|].
    destruct (by_user_parent u pr f); by constructor. }
  split; [by apply (getIndex_ok req w uid u pr)|].
  split.
  { rewrite (getIndex_ok next w uid u pr); try done; [|lia]. by rewrite Hn. }
  split; [rewrite length_take; lia|].
  split; [done|]. split; [done|]. split.
  - assert (NoDup (take 40 (drop n matching))) as Hnd'.
    { eapply sublist_NoDup; [|exact Hsub]. by eapply NoDup_fmap_1. }
    rewrite <- Happ in Hnd'. apply NoDup_app in Hnd' as (_ & Hdisj & _).
    exact Hdisj.
  - by rewrite Happ.
Qed.

(** ** Creating a node ([postUpload]) *)

Section Upload.

Context (FOLDER_PATH : option string)
        (path_join : string → string → string)
        (Buffer_from_base64 : string → list byte).


(** A request that passes every check, from a session whose user id is
    the text of an id, creates the document, given that the driver draws
    an [_id] not in the collection. *)
Lemma postUpload_created (insertedId : oid) (uuid : string) (settled : bool)
    (req : request) (w : world) (uid name : string) (u : oid) (ty : file_type) :
  session w req = Some uid →
  ObjectId uid = Some u →
  truthy_str (body_name req) = Some name →
  truthy_str (body_type req) ≫= parse_type = Some ty →
  spec_validation w req = None →
  match upload_parent req with Some ps => is_Some (ObjectId ps) | None => True end →
  insertedId ∉ map f_id (files w) →
  ∃ pref d,
    match upload_parent req with
    | Some ps => Parent <$> ObjectId ps = Some pref
    | None => pref = Root
    end
    ∧ d = new_doc insertedId
            (if bool_decide (ty = type_folder) then None
             else Some (path_join (default "/tmp/files_manager"
                                           (truthy_str FOLDER_PATH)) uuid))
            (FolderData u name ty (js_or (body_isPublic req) (JBool false)) pref)
    ∧ status (fst (run (postUpload FOLDER_PATH path_join Buffer_from_base64
                          insertedId uuid settled req) w)) = 201
    ∧ files (snd (run (postUpload FOLDER_PATH path_join Buffer_from_base64
                         insertedId uuid settled req) w))
      = (files w ++ [d])%list.
Proof.
  intros (t & Ht & Hu)%session_Some Huid Hname Hty Hval Hparse Hfresh.
  revert Hval Hparse. unfold spec_validation, upload_parent.
  hunfold. simpl. rewrite Ht. simpl. rewrite Hu. simpl.
  rewrite Hname, Hty, Huid. simpl.
  repeat (hstep; try done).
  all: intros _ Hparse; try (by destruct Hparse).
  all: repeat match goal with
              | H : _ && _ = false |- _ => apply andb_false_iff in H as [H|H]
              end; simpl in *; bool_hyps; try done.
  all: eexists _, _; (split; [reflexivity|]).
  all: rewrite ?bool_decide_eq_true_2, ?bool_decide_eq_false_2 by done.
  all: split; [reflexivity|done].
Qed.

(** The parent named by a [parentId] that is the text of an id. *)
Lemma upload_parent_id (req : request) (ps : string) (p : oid) :
  body_parentId req = Some ps → ObjectId ps = Some p →
  upload_parent req = Some ps.
Proof.
  intros Hps Hp. apply ObjectId_length in Hp.
  assert (ps ≠ "") as Hne by (intros ->; by destruct Hp).
  assert (ps ≠ "0") as Hne0 by (intros ->; by destruct Hp).
  unfold upload_parent, truthy_str. rewrite Hps.
  destruct (String.eqb_spec ps ""); [done|].
  by rewrite bool_decide_eq_true_2.
Qed.

(** C9: the only conditions [postUpload] puts on a parent are that it is
    found and is a folder. A user with a session who names as parent a
    stored folder, whoever owns it and whatever its [isPublic], and whose
    request passes the checks on name, type and data, is answered 201 and
    the new document is stored under that folder. *)
Theorem postUpload_into_any_folder (insertedId : oid) (uuid : string)
    (settled : bool) (req : request) (w : world) (uid name ps : string)
    (u p : oid) (ty : file_type) (parent : file_doc) :
  session w req = Some uid →
  ObjectId uid = Some u →
  truthy_str (body_name req) = Some name →
  truthy_str (body_type req) ≫= parse_type = Some ty →
  ty = type_folder ∨ is_Some (truthy_str (body_data req)) →
  body_parentId req = Some ps →
  ObjectId ps = Some p →
  findOne (by_id p) (files w) = Some parent →
  f_type parent = type_folder →
  insertedId ∉ map f_id (files w) →
  status (fst (run (postUpload FOLDER_PATH path_join Buffer_from_base64
                      insertedId uuid settled req) w)) = 201
  ∧ ∃ d, files (snd (run (postUpload FOLDER_PATH path_join Buffer_from_base64
                            insertedId uuid settled req) w))
         = (files w ++ [d])%list
         ∧ f_id d = insertedId ∧ f_userId d = u ∧ f_parentId d = Parent p.
Proof.
  intros Hs Hu Hname Hty Hdata Hps Hp Hparent Hfolder Hfresh.
  pose proof (upload_parent_id req ps p Hps Hp) as Hup.
  destruct (postUpload_created insertedId uuid settled req w uid name u ty)
    as (pref & d & Hpref & Hd & Hst & Hfiles); try done.
  - unfold spec_validation. rewrite Hname, Hty, Hup. simpl. rewrite Hp, Hparent.
    rewrite (bool_decide_eq_false_2 (f_type parent ≠ _)) by (by intros ?).
    assert (bool_decide (truthy_str (body_data req) = None)
            && bool_decide (ty ≠ type_folder) = false) as ->;
      [|done].
    apply andb_false_iff.
    destruct Hdata as [->|[data ->]];
      [right; apply bool_decide_eq_false_2; by intros ?
      |left; by apply bool_decide_eq_false_2].
  - rewrite Hup. by exists p.
  - rewrite Hup, Hp in Hpref. injection Hpref as <-.
    split; [done|]. exists d. split; [done|]. by subst d.
Qed.

(** C5: when [postUpload] answers 201 for an image, exactly one call of
    [fileQueue.add] has been made, with the new [_id] and the user id of
    the session as data and 3 attempts with a fixed backoff of 5000 ms as
    options; for a file or a folder no call has been made; and the answer
    is the same whatever becomes of the promise of that call. *)
Theorem postUpload_thumbnail_job (insertedId : oid) (uuid : string)
    (settled : bool) (req : request) (w : world) (uid : string) (ty : file_type) :
  session w req = Some uid →
  truthy_str (body_type req) ≫= parse_type = Some ty →
  status (fst (run (postUpload FOLDER_PATH path_join Buffer_from_base64
                      insertedId uuid settled req) w)) = 201 →
  fileQueue (snd (run (postUpload FOLDER_PATH path_join Buffer_from_base64
                         insertedId uuid settled req) w))
  = (fileQueue w
     ++ if bool_decide (ty = type_image)
        then [AddCall (JobData insertedId uid) (JobOpts 3 "fixed" 5000) settled]
        else [])%list
  ∧ ∀ settled',
      fst (run (postUpload FOLDER_PATH path_join Buffer_from_base64
                  insertedId uuid settled' req) w)
      = fst (run (postUpload FOLDER_PATH path_join Buffer_from_base64
                    insertedId uuid settled req) w).
Proof.
  intros (t & Ht & Hu)%session_Some Hty.
  hunfold. simpl. rewrite Ht. simpl. rewrite Hu. simpl. rewrite Hty. simpl.
  repeat (hstep; try done).
  all: intros _; bool_hyps; subst; (split; [|done]).
  all: rewrite ?app_nil_r; try done.
  all: by repeat case_bool_decide.
Qed.

(** The answer of [postUpload] never has a [localPath]. *)
Lemma postUpload_no_localPath (insertedId : oid) (uuid : string)
    (settled : bool) (req : request) (w : world) :
  body_field "localPath"
    (res_body (fst (run (postUpload FOLDER_PATH path_join Buffer_from_base64
                           insertedId uuid settled req) w))) = None.
Proof. hwalk by idtac. Qed.

(** C10: asked by its owner, a stored file or image is printed with its
    [localPath] by [getShow], [putPublish] and [putUnpublish], while the
    answer of [postUpload] has no [localPath], although the document it
    stores for a file or an image has one. *)
Theorem localPath_in_answers (req : request) (w : world) (uid : string)
    (i : oid) (f : file_doc)
    (insertedId : oid) (uuid : string) (settled : bool) (up : request) :
  locators w →
  session w req = Some uid →
  ObjectId (params_id req) = Some i →
  ObjectId uid = Some (f_userId f) →
  findOne (by_id i) (files w) = Some f →
  f_type f ≠ type_folder →
  (∃ path,
     f_localPath f = Some path
     ∧ body_field "localPath" (res_body (fst (run (getShow req) w)))
       = Some (JStr path)
     ∧ body_field "localPath" (res_body (fst (run (putPublish req) w)))
       = Some (JStr path)
     ∧ body_field "localPath" (res_body (fst (run (putUnpublish req) w)))
       = Some (JStr path))
  ∧ body_field "localPath"
      (res_body (fst (run (postUpload FOLDER_PATH path_join Buffer_from_base64
                             insertedId uuid settled up) w))) = None
  ∧ locators (snd (run (postUpload FOLDER_PATH path_join Buffer_from_base64
                          insertedId uuid settled up) w)).
Proof.
  intros Hloc Hs Hi Hu Hf Hty.
  split; [|split; [apply postUpload_no_localPath|]].
  - destruct (f_localPath f) as [path|] eqn:Hpath.
    2:{ exfalso. apply Hty. apply Hloc; [|done]. by apply findOne_Some in Hf as [? _]. }
    exists path. split; [done|]. unfold putPublish, putUnpublish.
    rewrite !(put_isPublic_owner _ req w uid i f) by done.
    split; [|by unfold body_field, doc_json; simpl; rewrite Hpath].
    apply session_Some in Hs as (t & Ht & Huid).
    hunfold. rewrite Ht. simpl. rewrite Huid. simpl. rewrite Hi, Hu. simpl.
    rewrite (findOne_by_id_owner _ _ _ _ Hf eq_refl). simpl.
    by unfold doc_json; rewrite Hpath.
  - apply (step_locators FOLDER_PATH path_join Buffer_from_base64 (λ _, None)
             (OpUpload insertedId uuid settled up) w Hloc).
Qed.

End Upload.

(** ** The properties on the example stores *)

Lemma ex_world_unique_ids : unique_ids ex_world.
Proof. unfold unique_ids. apply (bool_decide_unpack _). vm_compute. exact I. Qed.

Lemma big_world_unique_ids : unique_ids big_world.
Proof. unfold unique_ids. apply (bool_decide_unpack _). vm_compute. exact I. Qed.

Lemma ex_world_locators : locators ex_world.
Proof.
  intros f Hf. unfold ex_world in Hf. simpl in Hf.
  repeat (apply elem_of_cons in Hf as [->|Hf]; [by split|]).
  by apply elem_of_nil in Hf.
Qed.


(** Bob uploads an image at the root. *)
Lemma postUpload_thumbnail_job_witness :
  fileQueue (snd (run (postUpload None ex_path_join ex_base64 fresh_id "u9" false
                         (ex_upload (Some "tb") (Some "pic.png") (Some "image")
                                    (Some "aGk=") None))
                      ex_world))
  = [AddCall (JobData fresh_id bob) (JobOpts 3 "fixed" 5000) false].
Proof.
  apply (postUpload_thumbnail_job None ex_path_join ex_base64 fresh_id "u9" false
           (ex_upload (Some "tb") (Some "pic.png") (Some "image") (Some "aGk=") None)
           ex_world bob type_image); reflexivity.
Defined.

(** Bob uploads a file into [Docs], a private folder of Alice. *)
Lemma postUpload_into_any_folder_witness :
  f_userId docs = alice ∧ alice ≠ bob ∧ truthy (f_isPublic docs) = false
  ∧ status (fst (run (postUpload None ex_path_join ex_base64 fresh_id "u9" true
                        (ex_upload (Some "tb") (Some "c.txt") (Some "file")
                                   (Some "aGk=") (Some docs_id)))
                     ex_world)) = 201.
Proof.
  split; [reflexivity|]. split; [discriminate|]. split; [reflexivity|].
  apply (postUpload_into_any_folder None ex_path_join ex_base64 fresh_id "u9" true
           (ex_upload (Some "tb") (Some "c.txt") (Some "file") (Some "aGk=")
                      (Some docs_id))
           ex_world bob "c.txt" docs_id bob docs_id type_file docs);
    try reflexivity.
  - right. by eexists.
  - apply (bool_decide_unpack _). vm_compute. exact I.
Defined.

(** Alice asks for her file [a.txt]; Bob uploads an image. *)
Lemma localPath_in_answers_witness :
  body_field "localPath"
    (res_body (fst (run (getShow (ex_request (Some "ta") a_txt_id)) ex_world)))
  = Some (JStr "/tmp/files_manager/u1")
  ∧ body_field "localPath"
      (res_body (fst (run (postUpload None ex_path_join ex_base64 fresh_id "u9" true
                             (ex_upload (Some "tb") (Some "pic.png") (Some "image")
                                        (Some "aGk=") None))
                          ex_world))) = None.
Proof.
  destruct (localPath_in_answers None ex_path_join ex_base64
              (ex_request (Some "ta") a_txt_id) ex_world alice a_txt_id a_txt
              fresh_id "u9" true
              (ex_upload (Some "tb") (Some "pic.png") (Some "image")
                         (Some "aGk=") None)
              ex_world_locators eq_refl eq_refl eq_refl eq_refl)
    as [(path & Hpath & Hshow & _) [Hup _]]; [discriminate|].
  injection Hpath as <-. split; [exact Hshow|exact Hup].
Defined.

(** Alice lists pages 1 and 2 of her 45 files at the root: 20 files, then
    the last 5. *)
Lemma getIndex_pages_witness :
  ∃ l l',
    run (getIndex (ex_index (Some "ta") (Some "1"))) big_world
    = (Response 200 (JsonArray (map doc_json l)), big_world)
    ∧ run (getIndex (ex_index (Some "ta") (Some "2"))) big_world
      = (Response 200 (JsonArray (map doc_json l')), big_world)
    ∧ length l = 20%nat ∧ length l' = 5%nat
    ∧ (∀ f, f ∈ l → f ∉ l')
    ∧ (l ++ l')%list `sublist_of` files big_world.
Proof.
  destruct (getIndex_pages (ex_index (Some "ta") (Some "1"))
              (ex_index (Some "ta") (Some "2")) big_world alice alice Root
              big_world_unique_ids eq_refl eq_refl eq_refl eq_refl eq_refl)
    as (l & l' & H1 & H2 & _ & Hl & Hl' & Hdisj & Hsub);
    [by vm_compute|reflexivity|].
  exists l, l'.
  split; [exact H1|]. split; [exact H2|].
  split; [rewrite Hl; reflexivity|]. split; [rewrite Hl'; reflexivity|].
  split; [exact Hdisj|exact Hsub].
Defined.

(** * Further properties of the file handlers *)

Section FilesMore.

Context (FOLDER_PATH : option string)
        (path_join : string → string → string)
        (Buffer_from_base64 : string → list byte)
        (mime_lookup : string → option string).

(** X1: every handler but [getFile] answers a request whose token is
    missing, empty or unknown with 401 Unauthorized, whatever else the
    request holds, and leaves the world as it was. *)
Theorem no_session_unauthorized (o : op) (w : world) :
  needs_session o = true →
  session w (op_request o) = None →
  step FOLDER_PATH path_join Buffer_from_base64 mime_lookup o w = (unauthorized, w).
Proof.
  intros Hneeds Hs. unfold step.
  destruct o as [req|i uu b req|req|req|req|req|req]; simpl in Hneeds, Hs;
    try discriminate; cbn [handle];
    apply session_None in Hs as [Hs|(t & Ht & Hs)]; hunfold; simpl;
    rewrite ?Hs, ?Ht; simpl; rewrite ?Hs; done.
Qed.

(** X2: [getShow], [getIndex] and [getFile] only read: whatever they
    answer, the world is as it was. *)
Theorem reads_leave_world (req : request) (w : world) :
  snd (run (getShow req) w) = w
  ∧ snd (run (getIndex req) w) = w
  ∧ snd (run (getFile mime_lookup req) w) = w.
Proof.
  split; [apply getShow_world|]. split; [apply getIndex_world|apply getFile_world].
Qed.

(** ** Publishing and unpublishing *)

Lemma session_set_files (c : list file_doc) (w : world) (req : request) :
  session (set_files c w) req = session w req.
Proof. reflexivity. Qed.

(** The whole of [putPublish] and [putUnpublish], path by path. *)
Lemma put_isPublic_run (b : bool) (req : request) (w : world) :
  run (put_isPublic b req) w
  = match session w req with
    | None => (unauthorized, w)
    | Some uid =>
        match ObjectId (params_id req), ObjectId uid with
        | Some i, Some u =>
            match findOne (by_id_user i u) (files w) with
            | None => (not_found, w)
            | Some _ =>
                let c := updateOne (by_id i) (set_isPublic b) (files w) in
                (Response 200 (json_doc (findOne (by_id i) c)), set_files c w)
            end
        | _, _ => (internal_error, w)
        end
    end.
Proof.
  unfold session. hunfold. simpl.
  destruct (truthy_str (header_X_Token req)) as [t|]; simpl; [|done].
  destruct (truthy_str (redis w !! auth_key t)) as [uid|]; simpl; [|done].
  destruct (ObjectId (params_id req)) as [i|]; simpl; [|done].
  destruct (ObjectId uid) as [u|]; simpl; [|done].
  by destruct (findOne (by_id_user i u) (files w)).
Qed.

(** Setting [isPublic] twice on the document of an [_id] is setting it to
    the second value. *)
Lemma updateOne_by_id_twice (i : oid) (b b' : bool) (c : list file_doc) :
  updateOne (by_id i) (set_isPublic b') (updateOne (by_id i) (set_isPublic b) c)
  = updateOne (by_id i) (set_isPublic b') c.
Proof.
  induction c as [|f c IH]; simpl; [done|].
  destruct (by_id i f) eqn:Hf; simpl.
  - unfold by_id in *. simpl. by rewrite Hf.
  - by rewrite Hf, IH.
Qed.

Lemma updateOne_same (q : file_doc → bool) (set : file_doc → file_doc)
    (c : list file_doc) :
  (∀ f, findOne q c = Some f → set f = f) → updateOne q set c = c.
Proof.
  unfold findOne. induction c as [|f c IH]; simpl; [done|].
  destruct (q f); intros H.
  - by rewrite (H f eq_refl).
  - by rewrite IH.
Qed.

Lemma findOne_updateOne_is_Some (q' q : file_doc → bool) (b : bool)
    (c : list file_doc) :
  (∀ f, q' (set_isPublic b f) = q' f) →
  is_Some (findOne q' c) → is_Some (findOne q' (updateOne q (set_isPublic b) c)).
Proof.
  unfold findOne. intros Hq. induction c as [|f c IH]; simpl; [done|].
  destruct (q f); simpl.
  - rewrite Hq. by destruct (q' f).
  - destruct (q' f); [done|]. exact IH.
Qed.

(** X3: publishing, and unpublishing, are idempotent for every request:
    done a second time, the operation gives the same answer and leaves the
    world as the first left it. *)
Theorem put_isPublic_idempotent (b : bool) (req : request) (w : world) :
  run (put_isPublic b req) (snd (run (put_isPublic b req) w))
  = run (put_isPublic b req) w.
Proof.
  rewrite (put_isPublic_run b req w).
  destruct (session w req) as [uid|] eqn:Hs; simpl.
  2:{ by rewrite put_isPublic_run, Hs. }
  destruct (ObjectId (params_id req)) as [i|] eqn:Hi,
           (ObjectId uid) as [u|] eqn:Hu; simpl;
    try (by rewrite put_isPublic_run, Hs, Hi, ?Hu).
  destruct (findOne (by_id_user i u) (files w)) as [f|] eqn:Hf; simpl.
  2:{ by rewrite put_isPublic_run, Hs, Hi, Hu, Hf. }
  rewrite put_isPublic_run, session_set_files, Hs, Hi, Hu. simpl.
  destruct (findOne_updateOne_is_Some (by_id_user i u) (by_id i) b (files w))
    as [g ->]; [done|by rewrite Hf|].
  by rewrite updateOne_by_id_twice.
Qed.

(** X4: when the owner publishes a document whose [isPublic] is false and
    then unpublishes it, the world is again what it was before, and
    the second answer shows the document as it was. *)
Theorem publish_then_unpublish (req : request) (w : world) (uid : string)
    (i : oid) (f : file_doc) :
  session w req = Some uid →
  ObjectId (params_id req) = Some i →
  ObjectId uid = Some (f_userId f) →
  findOne (by_id i) (files w) = Some f →
  f_isPublic f = JBool false →
  run (putUnpublish req) (snd (run (putPublish req) w))
  = (Response 200 (Json (doc_json f)), w).
Proof.
  intros Hs Hi Hu Hf Hpub. unfold putPublish, putUnpublish.
  rewrite (put_isPublic_owner true req w uid i f) by done. simpl.
  assert (by_id i (set_isPublic true f) = true) as Hq.
  { apply findOne_Some in Hf as [_ Hf]. exact Hf. }
  rewrite (put_isPublic_owner false req _ uid i (set_isPublic true f)); try done.
  2:{ simpl. by apply findOne_updateOne. }
  assert (set_isPublic false (set_isPublic true f) = f) as ->.
  { destruct f. simpl in *. by rewrite Hpub. }
  simpl. rewrite updateOne_by_id_twice.
  rewrite updateOne_same; [by destruct w|].
  intros g Hg. rewrite Hf in Hg. injection Hg as <-.
  destruct f. simpl in *. by rewrite Hpub.
Qed.

(** X5: a user with a session who publishes or unpublishes an [_id] that
    is not in the collection, or is the [_id] of a document of another
    user, is answered 404 Not found and nothing changes. *)
Theorem put_isPublic_not_owner (b : bool) (req : request) (w : world)
    (uid : string) (i u : oid) :
  unique_ids w →
  session w req = Some uid →
  ObjectId (params_id req) = Some i →
  ObjectId uid = Some u →
  (∀ f, findOne (by_id i) (files w) = Some f → f_userId f ≠ u) →
  run (put_isPublic b req) w = (not_found, w).
Proof.
  intros Hnd Hs Hi Hu Hother.
  rewrite put_isPublic_run, Hs, Hi, Hu.
  destruct (findOne (by_id i) (files w)) as [f|] eqn:Hf.
  - rewrite (findOne_by_id_user _ _ u _ Hnd Hf).
    by rewrite bool_decide_eq_false_2 by (by apply Hother).
  - assert (findOne (by_id_user i u) (files w) = None) as ->; [|done].
    apply findOne_None. intros g Hg.
    rewrite findOne_None in Hf. specialize (Hf g Hg).
    unfold by_id_user. unfold by_id in Hf. by rewrite Hf.
Qed.

(** ** Uploads *)

(** A file or an image that passes every check: the answer and the whole
    world afterwards. *)
Lemma postUpload_file_run (insertedId : oid) (uuid : string) (settled : bool)
    (req : request) (w : world) (uid name data : string) (u : oid)
    (ty : file_type) :
  session w req = Some uid →
  ObjectId uid = Some u →
  truthy_str (body_name req) = Some name →
  truthy_str (body_type req) ≫= parse_type = Some ty →
  ty ≠ type_folder →
  truthy_str (body_data req) = Some data →
  spec_validation w req = None →
  match upload_parent req with Some ps => is_Some (ObjectId ps) | None => True end →
  insertedId ∉ map f_id (files w) →
  ∃ pref,
    let path := path_join (default "/tmp/files_manager" (truthy_str FOLDER_PATH))
                          uuid in
    let fd := FolderData u name ty (js_or (body_isPublic req) (JBool false)) pref in
    run (postUpload FOLDER_PATH path_join Buffer_from_base64
           insertedId uuid settled req) w
    = (Response 201 (Json ([("id", JStr (oid_toString insertedId))]
                           ++ folderData_json fd)%list),
       World (redis w)
             (files w ++ [new_doc insertedId (Some path) fd])
             (<[path := Buffer_from_base64 data]> (disk w))
             (fileQueue w
              ++ if bool_decide (ty = type_image)
                 then [AddCall (JobData insertedId uid) thumbnail_opts settled]
                 else [])).
Proof.
  intros (t & Ht & Hu)%session_Some Huid Hname Hty Hnf Hdata Hval Hparse Hfresh.
  pose proof (truthy_str_Some _ _ Hdata) as [Hd _].
  revert Hval Hparse. unfold spec_validation, upload_parent.
  hunfold. simpl. rewrite Ht. simpl. rewrite Hu. simpl.
  rewrite Hname, Hty, Huid, Hdata, Hd. simpl.
  rewrite (bool_decide_eq_false_2 (ty = type_folder)) by done.
  repeat (hstep; try done).
  all: intros _ Hparse; try (by destruct Hparse); bool_hyps; try done.
  all: eexists; unfold set_fileQueue, set_files, set_disk; simpl.
  all: rewrite ?bool_decide_eq_true_2, ?bool_decide_eq_false_2 by done.
  all: by rewrite ?app_nil_r.
Qed.

Lemma findOne_by_id_app_fresh (c : list file_doc) (d : file_doc) :
  f_id d ∉ map f_id c → findOne (by_id (f_id d)) (c ++ [d]) = Some d.
Proof.
  unfold findOne, by_id. induction c as [|f c IH]; simpl; intros Hfresh.
  - by rewrite bool_decide_eq_true_2.
  - apply not_elem_of_cons in Hfresh as [Hne Hfresh].
    rewrite bool_decide_eq_false_2 by done. by apply IH.
Qed.

(** X6: what is uploaded is what is read. After a file or an image has
    been created from the base64 text [data], [getFile] on the new [_id]
    answers the decoded bytes, with the content type of the name, to every
    request if [isPublic] was given a truthy value, and otherwise to the
    requests whose session is the uploader's; the others get 404. *)
Theorem upload_then_getFile (insertedId : oid) (uuid : string) (settled : bool)
    (req reader : request) (w : world) (uid name data : string) (u : oid)
    (ty : file_type) :
  session w req = Some uid →
  ObjectId uid = Some u →
  truthy_str (body_name req) = Some name →
  truthy_str (body_type req) ≫= parse_type = Some ty →
  ty ≠ type_folder →
  truthy_str (body_data req) = Some data →
  spec_validation w req = None →
  match upload_parent req with Some ps => is_Some (ObjectId ps) | None => True end →
  insertedId ∉ map f_id (files w) →
  ObjectId (params_id reader) = Some insertedId →
  let w' := snd (run (postUpload FOLDER_PATH path_join Buffer_from_base64
                        insertedId uuid settled req) w) in
  run (getFile mime_lookup reader) w'
  = (if truthy (body_isPublic req)
        || bool_decide (session w reader = Some (oid_toString u))
     then Response 200 (Raw (default "application/octet-stream" (mime_lookup name))
                            (Buffer_from_base64 data))
     else not_found, w').
Proof.
  intros Hs Hu Hname Hty Hnf Hdata Hval Hparse Hfresh Hreader.
  destruct (postUpload_file_run insertedId uuid settled req w uid name data u ty)
    as [pref Hrun]; try done.
  simpl in Hrun. simpl. rewrite Hrun. simpl.
  set (path := path_join (default "/tmp/files_manager" (truthy_str FOLDER_PATH)) uuid).
  set (d := new_doc insertedId (Some path)
              (FolderData u name ty (js_or (body_isPublic req) (JBool false)) pref)).
  set (w' := World _ _ _ _).
  assert (findOne (by_id insertedId) (files w') = Some d) as Hfind.
  { apply (findOne_by_id_app_fresh (files w) d Hfresh). }
  assert (disk w' !! path = Some (Buffer_from_base64 data)) as Hdisk.
  { apply lookup_insert_eq. }
  destruct (truthy (body_isPublic req)) eqn:Hpub; simpl.
  - rewrite (getFile_public mime_lookup reader w' insertedId d path
               (Buffer_from_base64 data)); try done.
    subst d. simpl. unfold js_or. by rewrite Hpub.
  - rewrite (getFile_private mime_lookup reader w' insertedId d path
               (Buffer_from_base64 data)); try done.
    subst d. simpl. unfold js_or. by rewrite Hpub.
Qed.

(** X7: an upload that is not answered 201 stores no document, makes no
    call to the thumbnail queue and touches no session; one that is
    answered 201 stores exactly one document, the last of the collection,
    with the [_id] drawn. *)
Theorem postUpload_all_or_nothing (insertedId : oid) (uuid : string)
    (settled : bool) (req : request) (w : world) :
  let r := run (postUpload FOLDER_PATH path_join Buffer_from_base64
                  insertedId uuid settled req) w in
  redis (snd r) = redis w
  ∧ if bool_decide (status (fst r) = 201)
    then ∃ d, files (snd r) = (files w ++ [d])%list ∧ f_id d = insertedId
    else files (snd r) = files w ∧ fileQueue (snd r) = fileQueue w.
Proof.
  hwalk by idtac.
  all: split; [done|]; eexists; by split.
Qed.

(** ** The hierarchy *)

(** The document an upload adds is at the root or under a folder of the
    collection. *)
Lemma postUpload_new_parent (insertedId : oid) (uuid : string) (settled : bool)
    (req : request) (w : world) :
  let w' := snd (run (postUpload FOLDER_PATH path_join Buffer_from_base64
                        insertedId uuid settled req) w) in
  files w' = files w
  ∨ ∃ d, files w' = (files w ++ [d])%list
         ∧ (f_parentId d = Root
            ∨ ∃ p g, f_parentId d = Parent p
                     ∧ findOne (by_id p) (files w) = Some g
                     ∧ f_type g = type_folder).
Proof.
  hwalk by left.
  all: right; eexists; (split; [reflexivity|]); simpl; bool_hyps.
  all: try (by left).
  all: right; eexists _, _; (split; [reflexivity|]); split; [eassumption|].
  all: by destruct (decide (f_type f0 = type_folder)).
Qed.

Lemma updateOne_same_but_isPublic (q : file_doc → bool) (b : bool)
    (c : list file_doc) :
  Forall2 same_but_isPublic c (updateOne q (set_isPublic b) c).
Proof.
  induction c as [|f c IH]; simpl; [constructor|].
  destruct (q f); constructor; try done. apply Forall2_same_refl.
Qed.

Lemma hierarchy_same_but_isPublic (c c' : list file_doc) :
  Forall2 same_but_isPublic c c' → hierarchy c → hierarchy c'.
Proof.
  intros Hsame Hh n f' p Hn Hp.
  destruct (Forall2_lookup_r _ _ _ _ _ Hsame Hn) as (f & Hf & Hff).
  destruct Hff as (_ & _ & _ & _ & _ & Hpar).
  destruct (Hh n f p Hf) as (m & g & Hm & Hg & Hid & Hty); [congruence|].
  destruct (Forall2_lookup_l _ _ _ _ _ Hsame Hg) as (g' & Hg' & Hgg).
  destruct Hgg as (Hid' & _ & _ & _ & Hty' & _).
  exists m, g'. repeat split; congruence.
Qed.

Lemma hierarchy_insert (c : list file_doc) (d : file_doc) :
  hierarchy c →
  (f_parentId d = Root
   ∨ ∃ p g, f_parentId d = Parent p ∧ findOne (by_id p) c = Some g
            ∧ f_type g = type_folder) →
  hierarchy (c ++ [d]).
Proof.
  intros Hh Hd n f p Hn Hp.
  destruct (decide (n < length c)%nat) as [Hlt|Hge].
  - rewrite lookup_app_l in Hn by done.
    destruct (Hh n f p Hn Hp) as (m & g & Hm & Hg & Hid & Hty).
    exists m, g. repeat split; try done.
    rewrite lookup_app_l; [done|lia].
  - rewrite lookup_app_r in Hn by lia.
    destruct (n - length c)%nat as [|k] eqn:Hk; simpl in Hn; [|done].
    injection Hn as <-.
    destruct Hd as [Hroot|(p' & g & Hp' & Hg & Hty)]; [congruence|].
    assert (p' = p) as -> by congruence.
    apply findOne_Some in Hg as [Hin Hid].
    apply list_elem_of_lookup in Hin as [m Hm].
    exists m, g. pose proof (lookup_lt_Some _ _ _ Hm).
    repeat split; try done; [lia| |].
    + by rewrite lookup_app_l.
    + unfold by_id in Hid. by apply bool_decide_eq_true_1 in Hid.
Qed.

(** X8: the collection stays a forest of folders. If every document that
    is not at the root names as parent a folder created before it, the
    same holds after any operation. *)
Theorem step_hierarchy (o : op) (w : world) :
  hierarchy (files w) →
  hierarchy (files (snd (step FOLDER_PATH path_join Buffer_from_base64
                           mime_lookup o w))).
Proof.
  intros Hh. unfold step.
  destruct o as [req|i uu b req|req|req|req|req|req];
    cbn [handle]; unfold putPublish, putUnpublish.
  - by rewrite getDisconnect_files.
  - destruct (postUpload_new_parent i uu b req w) as [->|(d & -> & Hd)]; [done|].
    by apply hierarchy_insert.
  - destruct (put_isPublic_files true req w) as [->|[j ->]]; [done|].
    eapply hierarchy_same_but_isPublic; [apply updateOne_same_but_isPublic|done].
  - destruct (put_isPublic_files false req w) as [->|[j ->]]; [done|].
    eapply hierarchy_same_but_isPublic; [apply updateOne_same_but_isPublic|done].
  - by rewrite getShow_world.
  - by rewrite getIndex_world.
  - by rewrite getFile_world.
Qed.

(** ** Sessions *)

(** X9: no file handler touches the session store: after an upload, a
    publish, an unpublish or a read, every Redis key is as it was. *)
Theorem files_keep_sessions (o : op) (w : world) :
  match o with
  | OpDisconnect _ => True
  | _ => redis (snd (step FOLDER_PATH path_join Buffer_from_base64
                       mime_lookup o w)) = redis w
  end.
Proof.
  unfold step.
  destruct o as [req|i uu b req|req|req|req|req|req]; cbn [handle]; [done|..].
  - by hwalk by idtac.
  - by hwalk by idtac.
  - by hwalk by idtac.
  - by rewrite getShow_world.
  - by rewrite getIndex_world.
  - by rewrite getFile_world.
Qed.

End FilesMore.

Lemma auth_key_inj (t t' : string) : auth_key t = auth_key t' → t = t'.
Proof. unfold auth_key. simpl. by intros [= H]. Qed.

(** X10: revoking a token revokes that token only: a request with another
    token resolves after [getDisconnect] to what it resolved to before. *)
Theorem getDisconnect_other_sessions (req other : request) (w : world) :
  header_X_Token other ≠ header_X_Token req →
  session (snd (run (getDisconnect req) w)) other = session w other.
Proof.
  intros Hne.
  destruct (session w req) as [uid|] eqn:Hs.
  - apply session_Some in Hs as (t & Ht & Hu).
    rewrite (getDisconnect_resolved req w t uid Ht Hu).
    unfold session.
    destruct (truthy_str (header_X_Token other)) as [t'|] eqn:Ht'; [|done].
    cbn [snd redis set_redis mbind option_bind].
    rewrite (lookup_delete_ne (redis w) (auth_key t) (auth_key t')); [done|].
    intros Heq%auth_key_inj. subst t'.
    apply truthy_str_Some in Ht as [Ht _], Ht' as [Ht' _]. congruence.
  - by rewrite (getDisconnect_unresolved req w Hs).
Qed.

(** ** Listing and reading: the edges *)

(** X11: a [page] that is absent or does not begin with a number is page
    0: the answer is the first 20 matching documents, not an error. *)
Theorem getIndex_page_not_a_number (req : request) (w : world) (uid : string)
    (u : oid) (pr : parent_ref) :
  session w req = Some uid →
  ObjectId uid = Some u →
  query_parent req = Some pr →
  query_page req ≫= parseInt10 = None →
  run (getIndex req) w
  = (Response 200 (JsonArray (map doc_json
       (take 20 (List.filter (by_user_parent u pr) (files w))))), w).
Proof.
  intros Hs Hu Hq Hpage.
  assert (page_number req = 0) as Hp by (unfold page_number; by rewrite Hpage).
  rewrite (getIndex_ok req w uid u pr) by (try done; lia).
  by rewrite Hp.
Qed.

(** X12: a page past the last matching document is an empty array,
    answered 200: there is no other sign of the end of the list. *)
Theorem getIndex_past_the_end (req : request) (w : world) (uid : string)
    (u : oid) (pr : parent_ref) :
  session w req = Some uid →
  ObjectId uid = Some u →
  query_parent req = Some pr →
  0 ≤ page_number req →
  (length (List.filter (by_user_parent u pr) (files w))
   ≤ Z.to_nat (page_number req) * 20)%nat →
  run (getIndex req) w = (Response 200 (JsonArray []), w).
Proof.
  intros Hs Hu Hq Hp Hlen.
  rewrite (getIndex_ok req w uid u pr) by done.
  by rewrite drop_ge by done.
Qed.

(** X13: when the file of a stored file or image is no longer on disk,
    [getFile] answers 404 to every request, the owner's and those for a
    public document included. *)
Theorem getFile_missing_blob (mime_lookup : string → option string)
    (req : request) (w : world) (i : oid) (f : file_doc) :
  ObjectId (params_id req) = Some i →
  findOne (by_id i) (files w) = Some f →
  f_type f ≠ type_folder →
  f_localPath f ≫= (λ p, disk w !! p) = None →
  run (getFile mime_lookup req) w = (not_found, w).
Proof.
  intros Hi Hf Hty Hblob. hunfold. simpl. rewrite Hi. simpl. rewrite Hf. simpl.
  rewrite (bool_decide_eq_false_2 _ Hty). simpl.
  repeat (hstep; try done).
  all: by rewrite Hblob.
Qed.

(** * Users and logins *)

(** ** Cutting strings *)

Lemma split_on_free (c : ascii) (s : string) :
  free_of c s = true → split_on c s = [s].
Proof.
  unfold free_of. induction s as [|a s IH]; simpl; [done|].
  intros [Ha Hs]%andb_true_iff. apply negb_true_iff in Ha.
  by rewrite Ha, (IH Hs).
Qed.

Lemma split_on_app (c : ascii) (s rest : string) :
  free_of c s = true → split_on c (s +:+ String c rest) = s :: split_on c rest.
Proof.
  unfold free_of. induction s as [|a s IH]; simpl.
  - intros _. by rewrite Ascii.eqb_refl.
  - intros [Ha Hs]%andb_true_iff. apply negb_true_iff in Ha.
    by rewrite Ha, (IH Hs).
Qed.

Lemma split_first_app (c : ascii) (s rest : string) :
  free_of c s = true → split_first c (s +:+ String c rest) = Some (s, rest).
Proof.
  unfold free_of. induction s as [|a s IH]; simpl.
  - intros _. by rewrite Ascii.eqb_refl.
  - intros [Ha Hs]%andb_true_iff. apply negb_true_iff in Ha.
    by rewrite Ha, (IH Hs).
Qed.

Lemma append_empty_r (s : string) : s +:+ "" = s.
Proof. induction s as [|a s IH]; [done|]. rewrite <- IH at 2. reflexivity. Qed.

Lemma truthy_str_ne (s : string) : s ≠ "" → truthy_str (Some s) = Some s.
Proof. intros Hs. simpl. by destruct (String.eqb_spec s ""). Qed.

Section UsersProperties.

Context (sha1 : string → string)
        (Buffer_from_base64 : string → list byte)
        (Buffer_toString : list byte → string).

(** ** Logging in ([getConnect]) *)

(** Every path of [getConnect]: it answers 200 with the token drawn, for
    the user found by the email of the header, whose digest is the SHA-1
    of the password of the header, and stores the token for that user; or
    it answers something else and changes nothing. *)
Lemma getConnect_cases (uuid : string) (users : list user_doc)
    (req : user_request) (w : world) :
  (∃ header credEnc email password user,
      truthy_str (header_Authorization req) = Some header
      ∧ split_on " " header !! 1%nat = Some credEnc
      ∧ truthy_str (split_on ":" (toString_ascii (Buffer_from_base64 credEnc))
                    !! 0%nat) = Some email
      ∧ truthy_str (split_on ":" (toString_ascii (Buffer_from_base64 credEnc))
                    !! 1%nat) = Some password
      ∧ users_findOne (by_email email) users = Some user
      ∧ u_password user = sha1 password
      ∧ run (getConnect sha1 Buffer_from_base64 uuid users req) w
        = (Response 200 (Json [("token", JStr uuid)]),
           set_redis (<[auth_key uuid := oid_toString (u_id user)]> (redis w)) w))
  ∨ (status (fst (run (getConnect sha1 Buffer_from_base64 uuid users req) w)) ≠ 200
     ∧ snd (run (getConnect sha1 Buffer_from_base64 uuid users req) w) = w).
Proof.
  unfold getConnect. hunfold. unfold redisClient_set, modify. simpl.
  repeat (hstep; try (by right)).
  left. bool_hyps.
  match goal with
  | H : ¬ (?x ≠ ?y) |- _ =>
      assert (x = y) by (destruct (decide (x = y)); [done|by exfalso; apply H])
  end.
  do 5 eexists. repeat split; eassumption || reflexivity.
Qed.

(** The login of a user whose header decodes to [email:password], or to
    [email:password:] and more. *)
Lemma getConnect_accepts (uuid : string) (users : list user_doc)
    (req : user_request) (w : world) (cred email password tail : string)
    (user : user_doc) :
  header_Authorization req = Some ("Basic " +:+ cred) →
  free_of " " cred = true →
  toString_ascii (Buffer_from_base64 cred) = email +:+ String ":" (password +:+ tail) →
  tail = "" ∨ (∃ rest, tail = String ":" rest) →
  free_of ":" email = true → free_of ":" password = true →
  email ≠ "" → password ≠ "" →
  users_findOne (by_email email) users = Some user →
  u_password user = sha1 password →
  run (getConnect sha1 Buffer_from_base64 uuid users req) w
  = (Response 200 (Json [("token", JStr uuid)]),
     set_redis (<[auth_key uuid := oid_toString (u_id user)]> (redis w)) w).
Proof.
  intros Hh Hcred Hdec Htail He Hp Hene Hpne Huser Hpw.
  assert (split_on " " ("Basic " +:+ cred) = ["Basic"; cred]) as Hsplit.
  { change ("Basic " +:+ cred) with ("Basic" +:+ String " " cred).
    rewrite (split_on_app " " "Basic" cred eq_refl). by rewrite split_on_free. }
  assert (∃ l, split_on ":" (email +:+ String ":" (password +:+ tail))
               = email :: password :: l) as [l Hparts].
  { rewrite split_on_app by done.
    destruct Htail as [->|[rest ->]].
    - exists []. rewrite append_empty_r. by rewrite split_on_free.
    - eexists. by rewrite split_on_app. }
  unfold getConnect. hunfold. unfold redisClient_set, modify.
  rewrite Hh, (truthy_str_ne ("Basic " +:+ cred)) by done.
  rewrite Hsplit. cbn [lookup list_lookup].
  assert (String.prefix "Basic " ("Basic " +:+ cred) = true) as ->
    by (vm_compute; by destruct cred).
  rewrite Hdec, Hparts. cbn [lookup list_lookup].
  rewrite (truthy_str_ne email Hene), (truthy_str_ne password Hpne). simpl.
  rewrite Huser. simpl. rewrite bool_decide_eq_false_2 by (by intros ?). done.
Qed.

(** X14: a header that decodes to [email:password:more] logs in the user
    whose password is [password]: [getConnect] keeps the text between the
    first and the second colon and drops the rest. *)
Theorem getConnect_password_cut (uuid : string) (users : list user_doc)
    (req : user_request) (w : world) (cred email password rest : string)
    (user : user_doc) :
  header_Authorization req = Some ("Basic " +:+ cred) →
  free_of " " cred = true →
  toString_ascii (Buffer_from_base64 cred)
  = email +:+ String ":" (password +:+ String ":" rest) →
  free_of ":" email = true → free_of ":" password = true →
  email ≠ "" → password ≠ "" →
  users_findOne (by_email email) users = Some user →
  u_password user = sha1 password →
  run (getConnect sha1 Buffer_from_base64 uuid users req) w
  = (Response 200 (Json [("token", JStr uuid)]),
     set_redis (<[auth_key uuid := oid_toString (u_id user)]> (redis w)) w).
Proof.
  intros Hh Hcred Hdec He Hp Hene Hpne Huser Hpw.
  apply (getConnect_accepts uuid users req w cred email password (String ":" rest));
    try done.
  right. by eexists.
Qed.

(** X15: the two ways in disagree on a password with a colon. For a user
    whose stored digest is that of [p:rest], [basicAuthenticate], which
    cuts the decoded header at its first colon only, lets the request
    through, while [getConnect], which compares the digest of [p], answers
    401. *)
Theorem colon_password_paths_disagree (uuid : string) (users : list user_doc)
    (req : user_request) (w : world) (cred email p rest : string)
    (user : user_doc) :
  header_Authorization req = Some ("Basic " +:+ cred) →
  free_of " " cred = true →
  toString_ascii (Buffer_from_base64 cred)
  = email +:+ String ":" (p +:+ String ":" rest) →
  Buffer_toString (Buffer_from_base64 cred)
  = email +:+ String ":" (p +:+ String ":" rest) →
  free_of ":" email = true → free_of ":" p = true →
  users_findOne (by_email email) users = Some user →
  u_password user = sha1 (p +:+ String ":" rest) →
  sha1 p ≠ sha1 (p +:+ String ":" rest) →
  basicAuthenticate sha1 Buffer_from_base64 Buffer_toString users req = Next user
  ∧ run (getConnect sha1 Buffer_from_base64 uuid users req) w = (unauthorized, w).
Proof.
  intros Hh Hcred Hascii Hutf He Hp Huser Hpw Hne.
  assert (split_on " " ("Basic " +:+ cred) = ["Basic"; cred]) as Hsplit.
  { change ("Basic " +:+ cred) with ("Basic" +:+ String " " cred).
    rewrite (split_on_app " " "Basic" cred eq_refl). by rewrite split_on_free. }
  split.
  - unfold basicAuthenticate, getUserFromAuthorization.
    rewrite Hh, (truthy_str_ne ("Basic " +:+ cred)) by done.
    cbn [mbind option_bind]. rewrite Hsplit.
    rewrite bool_decide_eq_false_2 by (by intros ?).
    rewrite Hutf, split_first_app by done. cbn [mbind option_bind].
    rewrite Huser. cbn [mbind option_bind].
    by rewrite bool_decide_eq_false_2 by (by intros ?).
  - unfold getConnect. hunfold. unfold redisClient_set, modify.
    rewrite Hh, (truthy_str_ne ("Basic " +:+ cred)) by done.
    rewrite Hsplit. cbn [lookup list_lookup].
    assert (String.prefix "Basic " ("Basic " +:+ cred) = true) as ->
      by (vm_compute; by destruct cred).
    rewrite Hascii, !split_on_app by done. cbn [lookup list_lookup].
    destruct (truthy_str (Some email)) as [e|] eqn:Hemail; [|done].
    apply truthy_str_Some in Hemail as [[= <-] _].
    destruct (truthy_str (Some p)) as [p'|] eqn:Hpass; [|done].
    apply truthy_str_Some in Hpass as [[= <-] _].
    simpl. rewrite Huser. simpl.
    by rewrite bool_decide_eq_true_2 by congruence.
Qed.

(** X16: [getConnect] issues a token only against a stored digest: when it
    answers 200, the collection has a user with the email of the header,
    the first found has as digest the SHA-1 of the password of the header,
    the answer carries the token drawn, and that token now resolves to
    this user; in every other case nothing is stored. *)
Theorem getConnect_sound (uuid : string) (users : list user_doc)
    (req : user_request) (w : world) :
  let r := run (getConnect sha1 Buffer_from_base64 uuid users req) w in
  if bool_decide (status (fst r) = 200)
  then ∃ header credEnc email password user,
         header_Authorization req = Some header
         ∧ split_on " " header !! 1%nat = Some credEnc
         ∧ split_on ":" (toString_ascii (Buffer_from_base64 credEnc)) !! 0%nat
           = Some email
         ∧ split_on ":" (toString_ascii (Buffer_from_base64 credEnc)) !! 1%nat
           = Some password
         ∧ users_findOne (by_email email) users = Some user
         ∧ u_password user = sha1 password
         ∧ fst r = Response 200 (Json [("token", JStr uuid)])
         ∧ snd r = set_redis (<[auth_key uuid := oid_toString (u_id user)]> (redis w)) w
  else snd r = w.
Proof.
  simpl.
  destruct (getConnect_cases uuid users req w)
    as [(header & credEnc & email & password & user
         & Hh%truthy_str_Some & Hc & He%truthy_str_Some & Hp%truthy_str_Some
         & Hu & Hpw & ->)|[Hst Hw]].
  - simpl. exists header, credEnc, email, password, user.
    destruct Hh as [Hh _], He as [He _], Hp as [Hp _]. done.
  - by rewrite bool_decide_eq_false_2.
Qed.

(** X17: logging in revokes nothing: a request whose token is not the one
    just drawn resolves after [getConnect] to what it resolved to before,
    so the sessions of a user live side by side. *)
Theorem getConnect_other_sessions (uuid : string) (users : list user_doc)
    (req : user_request) (other : request) (w : world) :
  header_X_Token other ≠ Some uuid →
  session (snd (run (getConnect sha1 Buffer_from_base64 uuid users req) w)) other
  = session w other.
Proof.
  intros Hne.
  destruct (getConnect_cases uuid users req w)
    as [(? & ? & ? & ? & user & _ & _ & _ & _ & _ & _ & ->)|[_ ->]]; [|done].
  unfold session.
  destruct (truthy_str (header_X_Token other)) as [t|] eqn:Ht; [|done].
  cbn [snd redis set_redis mbind option_bind].
  rewrite (lookup_insert_ne (redis w) (auth_key uuid) (auth_key t)); [done|].
  intros Heq%auth_key_inj. subst t.
  apply truthy_str_Some in Ht as [Ht _]. congruence.
Qed.

(** X18: logging out undoes logging in. After a login answered 200, a
    request with the token drawn is answered 204 by [getDisconnect]; from
    then on the token resolves to nothing, [getMe] answers 401, and the
    session store is what it was before the login, less that key. *)
Theorem login_then_logout (uuid : string) (users : list user_doc)
    (login : user_request) (req : request) (w : world) :
  Forall (λ u, u_id u ≠ "") users →
  uuid ≠ "" →
  header_X_Token req = Some uuid →
  status (fst (run (getConnect sha1 Buffer_from_base64 uuid users login) w)) = 200 →
  let w1 := snd (run (getConnect sha1 Buffer_from_base64 uuid users login) w) in
  let w2 := snd (run (getDisconnect req) w1) in
  fst (run (getDisconnect req) w1) = Response 204 Empty
  ∧ redis w2 = delete (auth_key uuid) (redis w)
  ∧ session w2 req = None
  ∧ run (getMe users req) w2 = (unauthorized, w2).
Proof.
  intros Hids Huuid Hreq Hst. simpl.
  destruct (getConnect_cases uuid users login w)
    as [(? & ? & email & ? & user & _ & _ & _ & _ & Hin & _ & Hrun)|[Hne _]];
    [|done].
  rewrite Hrun. simpl.
  assert (u_id user ≠ "") as Hid.
  { rewrite Forall_forall in Hids. apply Hids.
    apply find_some in Hin as [Hin _]. by apply list_elem_of_In. }
  assert (truthy_str (header_X_Token req) = Some uuid) as Ht.
  { rewrite Hreq. by apply truthy_str_ne. }
  rewrite (getDisconnect_resolved req _ uuid (u_id user) Ht).
  2:{ simpl. rewrite lookup_insert_eq. by apply truthy_str_ne. }
  simpl. rewrite delete_insert_eq.
  assert (session (set_redis (delete (auth_key uuid) (redis w)) w) req = None) as Hs.
  { unfold session. rewrite Ht. simpl. by rewrite lookup_delete_eq. }
  repeat split; try done.
  unfold getMe. hunfold. rewrite Ht. simpl. by rewrite lookup_delete_eq.
Qed.

(** ** Signing up ([postNew]) *)

Lemma users_findOne_email_None (email : string) (c : list user_doc) :
  users_findOne (by_email email) c = None ↔ email ∉ map u_email c.
Proof.
  unfold users_findOne, by_email. induction c as [|u c IH]; simpl.
  - split; [|done]. intros _. apply not_elem_of_nil.
  - case_bool_decide as Hu; simpl.
    + split; [done|]. intros H. exfalso. apply H. rewrite Hu. apply list_elem_of_here.
    + rewrite IH, not_elem_of_cons. split; [intros H; by split|by intros [_ H]].
Qed.

(** X19: an email is taken once. A signup with an email and a password for
    an email already in the collection is answered 400 ["Already exist"]
    and stores nothing. *)
Theorem postNew_duplicate_email (insertedId : oid) (settled : bool)
    (req : user_request) (a : accounts) (email password : string) :
  truthy_str (body_email req) = Some email →
  truthy_str (body_password req) = Some password →
  email ∈ map u_email (users a) →
  postNew sha1 insertedId settled req a = (error 400 "Already exist", a).
Proof.
  intros He Hp Hin. unfold postNew. rewrite He, Hp.
  destruct (users_findOne (by_email email) (users a)) eqn:Hf; [done|].
  by apply users_findOne_email_None in Hf.
Qed.

(** X20: [postNew] keeps emails and [_id]s unique: if no two users of the
    collection share an email or an [_id] before a signup, none do after
    it, whatever the request. *)
Theorem postNew_keeps_unique (insertedId : oid) (settled : bool)
    (req : user_request) (a : accounts) :
  unique_emails a → unique_user_ids a →
  unique_emails (snd (postNew sha1 insertedId settled req a))
  ∧ unique_user_ids (snd (postNew sha1 insertedId settled req a)).
Proof.
  unfold unique_emails, unique_user_ids, postNew. intros He Hi.
  destruct (truthy_str (body_email req)) as [email|]; [|done].
  destruct (truthy_str (body_password req)) as [password|]; [|done].
  destruct (users_findOne (by_email email) (users a)) eqn:Hf; [done|].
  apply users_findOne_email_None in Hf.
  case_bool_decide as Hid; [done|]. simpl. rewrite !map_app. simpl.
  split; apply NoDup_app; (split; [done|]); (split; [|apply NoDup_singleton]).
  - intros x Hx Hx'%list_elem_of_singleton. by subst x.
  - intros x Hx Hx'%list_elem_of_singleton. by subst x.
Qed.



(** ** The token middleware and [getMe] *)

(** X22: [xTokenAuthenticate] and [getMe] agree on who is asking: the
    middleware lets a request through with a user exactly when [getMe]
    answers 200 with the [_id] and the email of that user; otherwise the
    middleware answers 401, also where [getMe] answers 500 for a stored
    user id that is not the text of an id. Neither changes the world. *)
Theorem xTokenAuthenticate_getMe (users : list user_doc) (req : request)
    (w : world) :
  match xTokenAuthenticate users req w with
  | Next user =>
      run (getMe users req) w
      = (Response 200 (Json (user_json (u_id user) (u_email user))), w)
  | Answered r =>
      r = unauthorized
      ∧ status (fst (run (getMe users req) w)) ≠ 200
      ∧ snd (run (getMe users req) w) = w
  end.
Proof.
  unfold xTokenAuthenticate, getUserFromXToken, getMe. hunfold. simpl.
  destruct (truthy_str (header_X_Token req)) as [t|]; simpl; [|done].
  destruct (truthy_str (redis w !! auth_key t)) as [uid|]; simpl; [|done].
  destruct (ObjectId uid) as [i|]; simpl; [|done].
  by destruct (users_findOne (by_user_id i) users).
Qed.

End UsersProperties.

(** * The environment file and the start of the server *)

(** [s.startsWith(c)] looks at the first character. *)
Lemma prefix_one (c a : ascii) (s : string) :
  String.prefix (String c "") (String a s) = bool_decide (c = a).
Proof.
  change (String.prefix (String c "") (String a s))
    with (match ascii_dec c a with
          | left _ => String.prefix "" s
          | right _ => false
          end).
  destruct (ascii_dec c a) as [Heq|Hne].
  - rewrite bool_decide_eq_true_2 by done. by destruct s.
  - by rewrite bool_decide_eq_false_2.
Qed.

(** Trimming the end keeps the first character, if anything is left. *)
Lemma trim_end_head (a : ascii) (s : string) :
  trim_end (String a s) = "" ∨ ∃ t, trim_end (String a s) = String a t.
Proof.
  cbn [trim_end]. destruct (trim_end s); [destruct (is_ws a)|]; eauto.
Qed.

(** A line [K=V] that is not a comment and has a name assigns the name
    to the value, both trimmed. *)
Lemma load_line_assigns (env : gmap string string) (k v : string) :
  free_of "=" k = true →
  trim k ≠ "" →
  String.prefix "#" k = false →
  load_line env (k +:+ String "=" v) = <[trim k := trim v]> env.
Proof.
  intros Hk Hname Hcomment. unfold load_line.
  destruct k as [|a k]; [done|].
  assert (String.eqb (String a k +:+ String "=" v) "" = false) as -> by done.
  assert (String.prefix "#" (String a k +:+ String "=" v) = false) as ->.
  { change (String a k +:+ String "=" v) with (String a (k +:+ String "=" v)).
    by rewrite prefix_one in *. }
  simpl orb. cbv iota. rewrite split_first_app by done.
  destruct (String.eqb_spec (trim (String a k)) ""); [done|]. done.
Qed.

(** A line leaves the environment as it is or assigns one variable, and
    which of the two does not depend on the environment. *)
Lemma load_line_cases (line : string) :
  (∀ env, load_line env line = env)
  ∨ (∃ k v, k ≠ "" ∧ ∀ env, load_line env line = <[k := v]> env).
Proof.
  unfold load_line.
  destruct (String.eqb line "" || String.prefix "#" line); [by left|].
  destruct (split_first "=" line) as [[l r]|]; [|by left].
  destruct (String.eqb_spec (trim l) "") as [|Hne]; [by left|].
  right. by exists (trim l), (trim r).
Qed.

Lemma foldl_load_line_keeps (lines : list string) (env : gmap string string) :
  dom env ⊆ dom (foldl load_line env lines)
  ∧ foldl load_line env lines !! "" = env !! "".
Proof.
  revert env. induction lines as [|l lines IH]; intros env; simpl; [done|].
  destruct (IH (load_line env l)) as [IHd IHe].
  destruct (load_line_cases l) as [Hid|(k & v & Hk & Hins)].
  - by rewrite Hid in *.
  - rewrite Hins in *. split.
    + etrans; [|exact IHd]. rewrite dom_insert_L. apply union_subseteq_r.
    + by rewrite IHe, lookup_insert_ne.
Qed.

(** A variable assigned before the lines are read and assigned again after
    them might as well not have been assigned before. *)
Lemma foldl_load_line_insert (lines : list string) (env : gmap string string)
    (k v v' : string) :
  <[k := v]> (foldl load_line (<[k := v']> env) lines)
  = <[k := v]> (foldl load_line env lines).
Proof.
  revert env. induction lines as [|l lines IH]; intros env; simpl.
  - by rewrite insert_insert_eq.
  - destruct (load_line_cases l) as [Hid|(k2 & v2 & _ & Hins)].
    + by rewrite !Hid.
    + rewrite !Hins. destruct (decide (k2 = k)) as [->|Hne].
      * by rewrite insert_insert_eq.
      * by rewrite insert_insert_ne.
Qed.

Lemma foldl_load_line_twice (lines : list string) (env : gmap string string) :
  foldl load_line (foldl load_line env lines) lines = foldl load_line env lines.
Proof.
  revert env. induction lines as [|l lines IH] using rev_ind; intros env; [done|].
  rewrite !foldl_app. simpl.
  destruct (load_line_cases l) as [Hid|(k & v & _ & Hins)].
  - by rewrite !Hid, IH.
  - by rewrite !Hins, foldl_load_line_insert, IH.
Qed.

(** X23: the last line of the environment file wins. When the file that
    [envLoader] reads ends, once trimmed, with a line [K=V] whose name is
    not empty and which does not begin with [#], the variable [K] is [V]
    afterwards, both trimmed, whatever the lines before it and whatever
    [V] holds after its first [=]. *)
Theorem envLoader_last_line (text env : gmap string string)
    (content : string) (lines : list string) (k v : string) :
  text !! env_file_path env = Some content →
  split_on "010" (trim content) = (lines ++ [k +:+ String "=" v])%list →
  free_of "=" k = true →
  trim k ≠ "" →
  String.prefix "#" k = false →
  envLoader text env !! trim k = Some (trim v).
Proof.
  intros Hfile Hlines Hk Hname Hcomment.
  unfold envLoader. rewrite Hfile. simpl. rewrite Hlines, foldl_app. simpl.
  rewrite load_line_assigns by done. apply lookup_insert_eq.
Qed.

(** X24: [envLoader] only adds and overrides: every variable of the
    environment is still defined afterwards, and no variable with an
    empty name appears. *)
Theorem envLoader_keeps (text env : gmap string string) :
  dom env ⊆ dom (envLoader text env)
  ∧ envLoader text env !! "" = env !! "".
Proof.
  unfold envLoader. destruct (text !! env_file_path env) as [content|]; [|done].
  apply foldl_load_line_keeps.
Qed.

(** X25: loading the environment file a second time changes nothing, as
    long as the first load has not changed which file is read. *)
Theorem envLoader_idempotent (text env : gmap string string) :
  env_file_path (envLoader text env) = env_file_path env →
  envLoader text (envLoader text env) = envLoader text env.
Proof.
  intros Hpath. unfold envLoader at 1. rewrite Hpath.
  unfold envLoader. destruct (text !! env_file_path env) as [content|]; [|done].
  apply foldl_load_line_twice.
Qed.

(** X26: the port the server listens on is the [PORT] of the last line of
    the environment file, if that line sets it: its value when there is
    one, and 5000 when the value is empty, even if the environment had a
    [PORT] before. *)
Theorem startServer_port (text env : gmap string string)
    (content : string) (lines : list string) (k v : string) :
  text !! env_file_path env = Some content →
  split_on "010" (trim content) = (lines ++ [k +:+ String "=" v])%list →
  free_of "=" k = true →
  trim k = "PORT" →
  snd (startServer text env)
  = if String.eqb (trim v) "" then inr 5000 else inl (trim v).
Proof.
  intros Hfile Hlines Hk Hname.
  assert (String.prefix "#" k = false) as Hcomment.
  { destruct k as [|a k]; [done|]. rewrite prefix_one.
    apply bool_decide_eq_false_2. intros <-.
    change (trim (String "#" k)) with (trim_end (String "#" k)) in Hname.
    destruct (trim_end_head "#" k) as [Ht|[t Ht]]; rewrite Ht in Hname;
      discriminate. }
  unfold startServer, envLoader. rewrite Hfile. simpl.
  rewrite Hlines, foldl_app. simpl.
  rewrite load_line_assigns by (try done; by rewrite Hname).
  rewrite Hname, lookup_insert_eq. simpl.
  by destruct (String.eqb (trim v) "").
Qed.

(** * Waiting for the database *)

Lemma repeatFct_resolved (alive : nat → bool) (fuel i k : nat) :
  (i < k < 10)%nat → (k - i ≤ fuel)%nat →
  alive k = true →
  (∀ j, (i < j < k)%nat → alive j = false) →
  repeatFct alive fuel i = Some (Resolved, k).
Proof.
  revert i. induction fuel as [|fuel IH]; intros i Hk Hfuel Hal Hbefore; [lia|].
  cbn [repeatFct].
  destruct (10 <=? S i)%nat eqn:Hten; [apply Nat.leb_le in Hten; lia|].
  destruct (decide (S i = k)) as [->|Hne].
  - by rewrite Hal.
  - rewrite Hbefore by lia. cbn [negb]. apply IH; try done; try lia.
    intros j Hj. apply Hbefore. lia.
Qed.

Lemma repeatFct_rejected (alive : nat → bool) (fuel i : nat) :
  (i < 10)%nat → (10 - i ≤ fuel)%nat →
  (∀ j, (i < j < 10)%nat → alive j = false) →
  repeatFct alive fuel i = Some (Rejected, 10%nat).
Proof.
  revert i. induction fuel as [|fuel IH]; intros i Hi Hfuel Hdead; [lia|].
  cbn [repeatFct]. destruct (10 <=? S i)%nat eqn:Hten.
  - apply Nat.leb_le in Hten. by replace i with 9%nat by lia.
  - apply Nat.leb_gt in Hten. rewrite Hdead by lia. cbn [negb].
    apply IH; try lia. intros j Hj. apply Hdead. lia.
Qed.

(** X27: [waitConnection] resolves at the first tick at which the database
    is alive, if that is one of the first nine. *)
Theorem waitConnection_resolves (alive : nat → bool) (k : nat) :
  (0 < k < 10)%nat →
  alive k = true →
  (∀ j, (0 < j < k)%nat → alive j = false) →
  waitConnection alive = Some (Resolved, k).
Proof.
  intros Hk Hal Hbefore. apply repeatFct_resolved; try done. lia.
Qed.

(** X28: [waitConnection] gives up at the tenth tick: if the database was
    not alive at any of the first nine, the promise is rejected, also when
    the database is alive at the tenth, which is not looked at. *)
Theorem waitConnection_rejects (alive : nat → bool) :
  (∀ j, (0 < j < 10)%nat → alive j = false) →
  waitConnection alive = Some (Rejected, 10%nat).
Proof.
  intros Hdead. apply repeatFct_rejected; try done; lia.
Qed.

(** * The further properties on the examples *)

Lemma ex_world_hierarchy : hierarchy (files ex_world).
Proof.
  intros n f p Hn Hp.
  destruct n as [|[|[|[|n]]]]; simpl in Hn; try discriminate;
    injection Hn as <-; try discriminate.
  injection Hp as <-. exists 0%nat, docs. repeat split. lia.
Qed.

(** A request without a token for [getShow]. *)
Lemma no_session_unauthorized_witness :
  step None ex_path_join ex_base64 ex_mime
       (OpShow (ex_request None a_txt_id)) ex_world
  = (unauthorized, ex_world).
Proof.
  apply (no_session_unauthorized None ex_path_join ex_base64 ex_mime
           (OpShow (ex_request None a_txt_id)) ex_world); reflexivity.
Defined.

(** Alice publishes and unpublishes [a.txt]. *)
Lemma publish_then_unpublish_witness :
  run (putUnpublish (ex_request (Some "ta") a_txt_id))
      (snd (run (putPublish (ex_request (Some "ta") a_txt_id)) ex_world))
  = (Response 200 (Json (doc_json a_txt)), ex_world).
Proof.
  apply (publish_then_unpublish (ex_request (Some "ta") a_txt_id) ex_world
           alice a_txt_id a_txt); reflexivity.
Defined.

(** Bob tries to publish Alice's [a.txt]. *)
Lemma put_isPublic_not_owner_witness :
  run (put_isPublic true (ex_request (Some "tb") a_txt_id)) ex_world
  = (not_found, ex_world).
Proof.
  apply (put_isPublic_not_owner true (ex_request (Some "tb") a_txt_id) ex_world
           bob a_txt_id bob); try reflexivity.
  - exact ex_world_unique_ids.
  - intros f Hf. vm_compute in Hf. injection Hf as <-. discriminate.
Defined.

(** Bob uploads a private file at the root and reads it back. *)
Lemma upload_then_getFile_witness :
  let up := ex_upload (Some "tb") (Some "c.txt") (Some "file") (Some "aGk=") None in
  let w' := snd (run (postUpload None ex_path_join ex_base64 fresh_id "u9" true up)
                     ex_world) in
  run (getFile ex_mime (ex_request (Some "tb") fresh_id)) w'
  = (if truthy (body_isPublic up)
        || bool_decide (session ex_world (ex_request (Some "tb") fresh_id)
                        = Some (oid_toString bob))
     then Response 200 (Raw (default "application/octet-stream" (ex_mime "c.txt"))
                            (ex_base64 "aGk="))
     else not_found, w').
Proof.
  apply (upload_then_getFile None ex_path_join ex_base64 ex_mime fresh_id "u9" true
           (ex_upload (Some "tb") (Some "c.txt") (Some "file") (Some "aGk=") None)
           (ex_request (Some "tb") fresh_id) ex_world bob "c.txt" "aGk=" bob
           type_file); try reflexivity.
  - discriminate.
  - apply (bool_decide_unpack _). vm_compute. exact I.
Defined.

(** Bob uploads a file into [Docs]. *)
Lemma step_hierarchy_witness :
  hierarchy (files (snd (step None ex_path_join ex_base64 ex_mime
    (OpUpload fresh_id "u9" true
       (ex_upload (Some "tb") (Some "c.txt") (Some "file") (Some "aGk=")
                  (Some docs_id)))
    ex_world))).
Proof.
  apply (step_hierarchy None ex_path_join ex_base64 ex_mime). exact ex_world_hierarchy.
Defined.

(** Alice logs out; Bob's token still resolves. *)
Lemma getDisconnect_other_sessions_witness :
  session (snd (run (getDisconnect (ex_request (Some "ta") "")) ex_world))
          (ex_request (Some "tb") "")
  = session ex_world (ex_request (Some "tb") "").
Proof.
  apply (getDisconnect_other_sessions (ex_request (Some "ta") "")
           (ex_request (Some "tb") "") ex_world).
  discriminate.
Defined.

Lemma getIndex_page_not_a_number_witness :
  run (getIndex (ex_index (Some "ta") (Some "first"))) big_world
  = (Response 200 (JsonArray (map doc_json
       (take 20 (List.filter (by_user_parent alice Root) (files big_world))))),
     big_world).
Proof.
  apply (getIndex_page_not_a_number (ex_index (Some "ta") (Some "first"))
           big_world alice alice Root); reflexivity.
Defined.

(** Page 3 of 45 files. *)
Lemma getIndex_past_the_end_witness :
  run (getIndex (ex_index (Some "ta") (Some "3"))) big_world
  = (Response 200 (JsonArray []), big_world).
Proof.
  apply (getIndex_past_the_end (ex_index (Some "ta") (Some "3")) big_world
           alice alice Root); try reflexivity.
  - by vm_compute.
  - vm_compute. lia.
Defined.

(** The public [b.txt], once its file is gone. *)
Lemma getFile_missing_blob_witness :
  run (getFile ex_mime (ex_request (Some "ta") b_txt_id)) ex_world_lost
  = (not_found, ex_world_lost).
Proof.
  apply (getFile_missing_blob ex_mime (ex_request (Some "ta") b_txt_id)
           ex_world_lost b_txt_id b_txt); try reflexivity.
  discriminate.
Defined.

(** Alice logs in with her password followed by a colon and more. *)
Lemma getConnect_password_cut_witness :
  run (getConnect ex_sha1 ex_decode "tok1" (users ex_accounts)
         (ex_login (Some "Basic alice@example.com:wonderland:or")))
      (set_redis ∅ ex_world)
  = (Response 200 (Json [("token", JStr "tok1")]),
     set_redis (<[auth_key "tok1" := oid_toString alice]> ∅) (set_redis ∅ ex_world)).
Proof.
  apply (getConnect_password_cut ex_sha1 ex_decode "tok1" (users ex_accounts)
           (ex_login (Some "Basic alice@example.com:wonderland:or"))
           (set_redis ∅ ex_world)
           "alice@example.com:wonderland:or" "alice@example.com" "wonderland" "or"
           (UserDoc alice "alice@example.com" (ex_sha1 "wonderland")));
    try reflexivity; discriminate.
Defined.

(** Carol, whose password is [pa:ss], passes the middleware and cannot
    log in. *)
Lemma colon_password_paths_disagree_witness :
  basicAuthenticate ex_sha1 ex_decode ex_toString (users ex_accounts_colon)
    (ex_login (Some "Basic carol@example.com:pa:ss")) = Next carol
  ∧ run (getConnect ex_sha1 ex_decode "tok1" (users ex_accounts_colon)
           (ex_login (Some "Basic carol@example.com:pa:ss"))) ex_world
    = (unauthorized, ex_world).
Proof.
  apply (colon_password_paths_disagree ex_sha1 ex_decode ex_toString "tok1"
           (users ex_accounts_colon)
           (ex_login (Some "Basic carol@example.com:pa:ss")) ex_world
           "carol@example.com:pa:ss" "carol@example.com" "pa" "ss" carol);
    try reflexivity.
  discriminate.
Defined.

(** Alice logs in a second time; her first token still resolves. *)
Lemma getConnect_other_sessions_witness :
  session (snd (run (getConnect ex_sha1 ex_decode "tok1" (users ex_accounts)
                       (ex_login (Some "Basic alice@example.com:wonderland")))
                    ex_world))
          (ex_request (Some "ta") "")
  = session ex_world (ex_request (Some "ta") "").
Proof.
  apply (getConnect_other_sessions ex_sha1 ex_decode "tok1" (users ex_accounts)
           (ex_login (Some "Basic alice@example.com:wonderland"))
           (ex_request (Some "ta") "") ex_world).
  discriminate.
Defined.

(** Alice logs in and out. *)
Lemma login_then_logout_witness :
  let login := ex_login (Some "Basic alice@example.com:wonderland") in
  let req := ex_request (Some "tok1") "" in
  let w1 := snd (run (getConnect ex_sha1 ex_decode "tok1" (users ex_accounts) login)
                     ex_world) in
  let w2 := snd (run (getDisconnect req) w1) in
  fst (run (getDisconnect req) w1) = Response 204 Empty
  ∧ redis w2 = delete (auth_key "tok1") (redis ex_world)
  ∧ session w2 req = None
  ∧ run (getMe (users ex_accounts) req) w2 = (unauthorized, w2).
Proof.
  apply (login_then_logout ex_sha1 ex_decode "tok1" (users ex_accounts)
           (ex_login (Some "Basic alice@example.com:wonderland"))
           (ex_request (Some "tok1") "") ex_world); try reflexivity.
  - repeat constructor; discriminate.
  - discriminate.
Defined.

(** A second signup with Alice's email. *)
Lemma postNew_duplicate_email_witness :
  postNew ex_sha1 carol_id true
    (ex_signup (Some "alice@example.com") (Some "other")) ex_accounts
  = (error 400 "Already exist", ex_accounts).
Proof.
  apply (postNew_duplicate_email ex_sha1 carol_id true
           (ex_signup (Some "alice@example.com") (Some "other")) ex_accounts
           "alice@example.com" "other"); try reflexivity.
  apply (bool_decide_unpack _). vm_compute. exact I.
Defined.

Lemma postNew_keeps_unique_witness :
  let a := snd (postNew ex_sha1 carol_id true
                  (ex_signup (Some "carol@example.com") (Some "pw")) ex_accounts) in
  unique_emails a ∧ unique_user_ids a.
Proof.
  apply (postNew_keeps_unique ex_sha1 carol_id true
           (ex_signup (Some "carol@example.com") (Some "pw")) ex_accounts).
  - unfold unique_emails. apply (bool_decide_unpack _). vm_compute. exact I.
  - unfold unique_user_ids. apply (bool_decide_unpack _). vm_compute. exact I.
Defined.


(** The indented [#] line is no comment, and its value keeps its [=]. *)
Lemma envLoader_last_line_witness :
  envLoader ex_env_text_hash ∅ !! "#DB" = Some "a=b".
Proof.
  apply (envLoader_last_line ex_env_text_hash ∅
           "PORT=5001
  #DB = a=b
" ["PORT=5001"] "  #DB " " a=b"); try reflexivity.
  discriminate.
Defined.

Lemma envLoader_idempotent_witness :
  envLoader ex_env_text (envLoader ex_env_text ∅) = envLoader ex_env_text ∅.
Proof.
  apply (envLoader_idempotent ex_env_text ∅). reflexivity.
Defined.

(** An empty [PORT] in the file hides the [PORT] of the environment. *)
Lemma startServer_port_witness :
  snd (startServer ex_env_text_port (<["PORT" := "8080"]> ∅)) = inr 5000.
Proof.
  apply (startServer_port ex_env_text_port (<["PORT" := "8080"]> ∅)
           "DB_HOST=localhost
PORT=
" ["DB_HOST=localhost"] "PORT" ""); reflexivity.
Defined.

Lemma waitConnection_resolves_witness :
  waitConnection (alive_from 3) = Some (Resolved, 3%nat).
Proof.
  apply (waitConnection_resolves (alive_from 3) 3); [lia|reflexivity|].
  intros j Hj. unfold alive_from. apply Nat.leb_gt. lia.
Defined.

(** Alive at the tenth tick, and rejected. *)
Lemma waitConnection_rejects_witness :
  alive_from 10 10 = true
  ∧ waitConnection (alive_from 10) = Some (Rejected, 10%nat).
Proof.
  split; [reflexivity|].
  apply (waitConnection_rejects (alive_from 10)).
  intros j Hj. unfold alive_from. apply Nat.leb_gt. lia.
Defined.
